(** * ExecutableEntropy: ELF metadata extraction, verified against its code

    Shallow embedding of [src/exentropy/__init__.py],
    [src/exentropy/searchexports.py] and [src/main.py].

    Conventions of the embedding:
    - a Python exception is a value of [PyExc]; a function that can raise
      returns [PyExc + A] and is written in the error monad below;
    - a Python [dict] is a [gmap], a Python [set] is a [gset]; iterating over
      either uses stdpp's enumeration ([map_to_list], [elements]), whose
      order is as unspecified as the interpreter's;
    - a Python 2 [str] holding raw bytes is a [list byte];
    - a Python [float] is a real number: arithmetic on [R] is exact, so the
      results about [compute_entropy] are results about the formula the code
      evaluates, not about IEEE-754 rounding; what is stated of its value
      is limited to values that are exact on doubles too (0, 4) and to
      equalities between runs that divide and sum the same numbers in the
      same order, never a bound or an order-independence that rounding
      could break;
    - the functions of pyelftools the code calls ([describe_symbol_type],
      [describe_symbol_shndx], [get_version], ...) are not part of this
      repository; they are embedded next to their callers from the
      library's behaviour. *)

From Stdlib Require Import Reals Lra Lia ZArith List Permutation.
From Stdlib Require Import Strings.Ascii Strings.Byte DecimalString DecimalN.
From Stdlib Require HexadecimalString HexadecimalN.
From stdpp Require Import gmap strings list fin_maps.

Set Warnings "-clear-no-such-hyp".

(** ** Python exceptions and the error monad *)

Inductive PyExc : Type :=
  | ZeroDivisionError
  | ValueError
  | TypeError
  | AttributeError
  | StopIteration
  | ELFError
  | IOError.

Definition py (A : Type) : Type := (PyExc + A)%type.

Definition ret {A} (a : A) : py A := inr a.
Definition raise {A} (e : PyExc) : py A := inl e.
Definition bind {A B} (c : py A) (k : A → py B) : py B :=
  match c with
  | inl e => inl e
  | inr a => k a
  end.

Declare Scope py_scope.
Delimit Scope py_scope with py.
Notation "'let*' x ':=' c 'in' k" := (bind c (λ x, k))
  (at level 10, x name, c at level 100, k at level 200) : py_scope.

(** ** 4.1 Entropy calculator: [ElfInfo.compute_entropy] *)

Module Entropy.

#[local] Instance byte_eq_decision : EqDecision byte := Byte.byte_eq_dec.

(** [struct.unpack('h', s)[0]] on a two-byte string: a signed 16-bit integer
    in native byte order (little-endian host). *)
Definition unpack_h (b0 b1 : byte) : Z :=
  let u := (Z.of_N (Byte.to_N b0) + 256 * Z.of_N (Byte.to_N b1))%Z in
  if (u <? 32768)%Z then u else (u - 65536)%Z.

(** [i = struct.unpack('h', byte + "\x00")[0]] *)
Definition byte_key (b : byte) : Z := unpack_h b x00.

(** One iteration of the first loop:
    [if not map_of_bytes.has_key(i): map_of_bytes[i] = 1
     else: map_of_bytes[i] += 1]. *)
Definition count_step (map_of_bytes : gmap Z nat) (b : byte) : gmap Z nat :=
  let i := byte_key b in
  match map_of_bytes !! i with
  | None => <[i := 1]> map_of_bytes
  | Some c => <[i := S c]> map_of_bytes
  end.

(** The first loop, from [map_of_bytes = dict()]. *)
Definition count_bytes (text : list byte) : gmap Z nat :=
  foldl count_step ∅ text.

(** [float(a) / float(b)]: raises on a zero divisor. *)
Definition float_div (a b : R) : py R :=
  if Req_dec_T b 0 then raise ZeroDivisionError else ret (a / b)%R.

(** [math.log(x, base)]: raises a domain error unless [x > 0]. *)
Definition math_log (x base : R) : py R :=
  if Rlt_dec 0 x then ret (ln x / ln base)%R else raise ValueError.

(** One iteration of the second loop:
    [p = float(map_of_bytes[key]) / float(len(text))
     if p > 0: entropy -= p * math.log(p, 2)]. *)
Definition entropy_step (len_text : nat) (acc : py R) (kv : Z * nat) : py R :=
  (let* entropy := acc in
   let* p := float_div (INR kv.2) (INR len_text) in
   if Rlt_dec 0 p
   then (let* l := math_log p 2 in ret (entropy - p * l)%R)
   else ret entropy)%py.

(** The second loop over an explicit enumeration of the dictionary. *)
Definition entropy_loop (len_text : nat) (items : list (Z * nat)) : py R :=
  foldl (entropy_step len_text) (ret 0%R) items.

Definition compute_entropy (text : list byte) : py R :=
  entropy_loop (length text) (map_to_list (count_bytes text)).

(** *** The formula of the specification *)

Definition all_bytes : list byte :=
  Eval cbv in
    omap (λ n, Byte.of_N (N.of_nat n)) (seq 0 256).

(** [count(v)] *)
Definition count (B : list byte) (v : byte) : nat :=
  count_occ Byte.byte_eq_dec B v.

(** The byte values occurring in [B]. *)
Definition occurring (B : list byte) : list byte :=
  filter (λ v, count B v ≠ 0) all_bytes.

(** [p(v) = count(v)/len(B)] *)
Definition prob (B : list byte) (v : byte) : R :=
  (INR (count B v) / INR (length B))%R.

Definition log2 (x : R) : R := (ln x / ln 2)%R.

Definition Rsum (l : list R) : R := foldr Rplus 0%R l.

(** The term the second loop subtracts for one dictionary entry. *)
Definition term (n : nat) (kv : Z * nat) : R :=
  (INR kv.2 / INR n * log2 (INR kv.2 / INR n))%R.

(** [-Σ p(v)·log2(p(v))] over the byte values occurring in [B]. *)
Definition shannon_entropy (B : list byte) : R :=
  (- Rsum ((λ v, prob B v * log2 (prob B v)) <$> occurring B))%R.

End Entropy.

(** ** Python built-ins on strings *)

Module PyStr.

(** [s.lstrip()], [s.rstrip()], [s.strip()] *)
Fixpoint lstrip (s : string) : string :=
  match s with
  | String a s' => if Ascii.is_space a then lstrip s' else s
  | EmptyString => EmptyString
  end.

Definition rstrip (s : string) : string := String.rev (lstrip (String.rev s)).

Definition strip (s : string) : string := rstrip (lstrip s).

(** [str(n)] for a non-negative integer. *)
Definition str_of_N (n : N) : string := NilEmpty.string_of_uint (N.to_uint n).

Fixpoint spaces (n : nat) : string :=
  match n with
  | O => EmptyString
  | S n' => String " "%char (spaces n')
  end.

(** ['%<width>s' % s]: right-justified, padded with spaces. *)
Definition rjust (width : nat) (s : string) : string :=
  String.app (spaces (width - String.length s)) s.

Definition digits (d : string) : py Z :=
  match d with
  | EmptyString => raise ValueError
  | _ =>
      match NilEmpty.uint_of_string d with
      | Some u => ret (Z.of_N (N.of_uint u))
      | None => raise ValueError
      end
  end.

(** [int(x)] for a [str]: surrounding whitespace is ignored, then an optional
    sign and decimal digits; anything else raises [ValueError]. *)
Definition int (x : string) : py Z :=
  match strip x with
  | String c d =>
      if Ascii.eqb c "-" then (let* n := digits d in ret (- n)%Z)%py
      else if Ascii.eqb c "+" then digits d
      else digits (String c d)
  | EmptyString => raise ValueError
  end.

(** Every character is ASCII and none is one of the separators
    [0x1c]..[0x1f]: the strings on which [strip] of a text ([unicode])
    string removes the same characters as [strip] of a byte string. *)
Fixpoint plain_ascii (s : string) : bool :=
  match s with
  | EmptyString => true
  | String a s' =>
      let n := N_of_ascii a in
      ((n <? 128)%N && negb ((28 <=? n)%N && (n <=? 31)%N)) && plain_ascii s'
  end.

(** [s.startswith(p)] *)
Definition startswith (s p : string) : bool := String.prefix p s.

(** Every character is a decimal digit. *)
Fixpoint is_digits (s : string) : bool :=
  match s with
  | EmptyString => true
  | String a s' => bool_decide (is_Some (Ascii.is_nat a)) && is_digits s'
  end.

End PyStr.

(** ** The ELF container, as pyelftools presents it *)

Module Elf.

(** [symbol['st_info']['type']]: an enumeration whose unknown values pass
    through as numbers. *)
Inductive st_type : Type :=
  | STT_NOTYPE | STT_OBJECT | STT_FUNC | STT_SECTION | STT_FILE
  | STT_COMMON | STT_TLS | STT_NUM | STT_RELC | STT_SRELC
  | STT_LOOS | STT_HIOS | STT_LOPROC | STT_HIPROC
  | STT_raw (n : N).

(** [symbol['st_shndx']] *)
Inductive st_shndx : Type :=
  | SHN_UNDEF | SHN_ABS | SHN_COMMON
  | SHN_num (n : N).

(** pyelftools' [describe_symbol_type]. *)
Definition describe_symbol_type (x : st_type) : string :=
  match x with
  | STT_NOTYPE => "NOTYPE"
  | STT_OBJECT => "OBJECT"
  | STT_FUNC => "FUNC"
  | STT_SECTION => "SECTION"
  | STT_FILE => "FILE"
  | STT_COMMON => "COMMON"
  | STT_TLS => "TLS"
  | STT_NUM => "NUM"
  | STT_RELC => "RELC"
  | STT_SRELC => "SRELC"
  | _ => "<unknown>"
  end.

(** pyelftools' [describe_symbol_shndx]:
    [_DESCR_ST_SHNDX.get(x, '%3s' % x)]. *)
Definition describe_symbol_shndx (x : st_shndx) : string :=
  match x with
  | SHN_UNDEF => "UND"
  | SHN_ABS => "ABS"
  | SHN_COMMON => "COM"
  | SHN_num n => PyStr.rjust 3 (PyStr.str_of_N n)
  end.

Record Symbol : Type := {
  name : string;
  st_info_type : st_type;
  st_shndx_ : st_shndx;
}.

Inductive sh_type : Type := SHT_SYMTAB | SHT_DYNSYM | SHT_other.

#[global] Instance sh_type_eq_dec : EqDecision sh_type.
Proof. solve_decision. Defined.

Inductive dyn_tag : Type := DT_NEEDED | DT_VERSYM | DT_other.

#[global] Instance dyn_tag_eq_dec : EqDecision dyn_tag.
Proof. solve_decision. Defined.

(** A tag of the dynamic section; [needed] is the string of a [DT_NEEDED]
    tag. *)
Record DynamicTag : Type := {
  d_tag : dyn_tag;
  needed : string;
}.

(** [symbol.entry['ndx']] of a versym entry. *)
Inductive versym_ndx : Type :=
  | VER_NDX_LOCAL | VER_NDX_GLOBAL | VER_NDX_LORESERVE | VER_NDX_ELIMINATE
  | VER_NDX_num (n : Z).

(** A version definition: its index [vd_ndx] and the names of its auxiliary
    records. *)
Record Verdef : Type := {
  vd_ndx : Z;
  verdaux : list string;
}.

Record Vernaux : Type := {
  vna_other : Z;
  vna_name : string;
}.

(** A needed file with its auxiliary version records. *)
Record Verneed : Type := {
  vn_file : string;
  vernaux : list Vernaux;
}.

(** The classes of sections the code distinguishes with [isinstance]. A
    container is given as the sections and entries that [iter_sections],
    [iter_symbols] and [iter_tags] yield when they complete; the errors of
    the parser while it iterates are not part of this description. *)
Inductive SectionKind : Type :=
  | SymbolTableSection (shtype : sh_type) (sh_entsize : N)
      (symbols : list Symbol)
  | DynamicSection (tags : list DynamicTag)
  | GNUVerSymSection (entries : list versym_ndx)
  | GNUVerDefSection (defs : list Verdef)
  | GNUVerNeedSection (needs : list Verneed)
  | PlainSection.

Record Section : Type := {
  sec_name : string;
  sh_size : Z;
  sh_flags : Z;
  sec_data : list byte;
  kind : SectionKind;
}.

(** [segment.header['p_type']]: the name of a known segment type, or the
    number of an unknown one, which the enumeration passes through. *)
Inductive p_type_value : Type :=
  | PT_name (s : string)
  | PT_num (n : Z).

Record Segment : Type := {
  p_type : p_type_value;
  p_memsz : Z;
  p_flags : Z;
  seg_data : list byte;
}.

Record ELFFile : Type := {
  elfclass : Z;
  sections : list Section;
  segments : list Segment;
}.

(** [GNUVerDefSection.num_versions()] *)
Definition verdef_num_versions (defs : list Verdef) : Z :=
  Z.of_nat (length defs).

(** [GNUVerDefSection.get_version(index)]: the first definition whose
    [vd_ndx] is [index], with the iterator over its auxiliary records, or
    [None]. *)
Definition verdef_get_version (defs : list Verdef) (index : Z)
    : option (Verdef * list string) :=
  (λ d, (d, verdaux d)) <$> head (filter (λ d, vd_ndx d = index) defs).

(** [GNUVerNeedSection.get_version(index)]: the first (needed file,
    auxiliary record) whose [vna_other] is [index], or [None]. *)
Fixpoint verneed_get_version (needs : list Verneed) (index : Z)
    : option (Verneed * Vernaux) :=
  match needs with
  | [] => None
  | vn :: needs' =>
      match filter (λ a, vna_other a = index) (vernaux vn) with
      | a :: _ => Some (vn, a)
      | [] => verneed_get_version needs' index
      end
  end.

End Elf.

(** ** The report and the state of an [ElfInfo] object *)

Module Report.

(** The ["name"] of an entry: a section name, or the [p_type] of a segment,
    which is a number for an unknown type. *)
Inductive RegionName : Type :=
  | NameStr (s : string)
  | NameInt (n : Z).

(** One entry of ["sections"] or ["segments"]. *)
Record Region : Type := {
  r_name : RegionName;
  r_size : Z;
  r_flags : Z;
  entro : R;
}.

(** The values stored in [self.data]; [list(some_set)] is a list without
    duplicates in an unspecified order, kept as the set it enumerates. *)
Inductive Value : Type :=
  | VInt (n : Z)
  | VNames (names : gset string)
  | VRegions (rs : list Region).

End Report.

Module Versions.
Import Elf.

Inductive scheme : Type := GNU | Solaris.

#[global] Instance scheme_eq_dec : EqDecision scheme.
Proof. solve_decision. Defined.

(** [self._versioninfo]: the keys ['versym'], ['verdef'], ['verneed'] and
    ['type']. *)
Record VersionInfo : Type := {
  versym : option (list versym_ndx);
  verdef : option (list Verdef);
  verneed : option (list Verneed);
  vtype : option scheme;
}.

(** The body of the loop of [_init_versioninfo]. *)
Definition versioninfo_step (vi : VersionInfo) (section : Section)
    : VersionInfo :=
  match kind section with
  | GNUVerSymSection e =>
      {| versym := Some e; verdef := verdef vi; verneed := verneed vi;
         vtype := vtype vi |}
  | GNUVerDefSection d =>
      {| versym := versym vi; verdef := Some d; verneed := verneed vi;
         vtype := vtype vi |}
  | GNUVerNeedSection n =>
      {| versym := versym vi; verdef := verdef vi; verneed := Some n;
         vtype := vtype vi |}
  | DynamicSection tags =>
      if existsb (λ tag, bool_decide (d_tag tag = DT_VERSYM)) tags
      then {| versym := versym vi; verdef := verdef vi; verneed := verneed vi;
              vtype := Some GNU |}
      else vi
  | _ => vi
  end.

(** [_init_versioninfo] on a container whose cache is empty; the function is
    the same, line for line, in both source files. *)
Definition scan_versioninfo (elffile : ELFFile) : VersionInfo :=
  let vi :=
    foldl versioninfo_step
      {| versym := None; verdef := None; verneed := None; vtype := None |}
      (sections elffile) in
  match vtype vi with
  | None =>
      if bool_decide (is_Some (verneed vi) ∨ is_Some (verdef vi))
      then {| versym := versym vi; verdef := verdef vi; verneed := verneed vi;
              vtype := Some Solaris |}
      else vi
  | Some _ => vi
  end.

(** The dictionary [symbol_version]. *)
Record SymbolVersion : Type := {
  index : option versym_ndx;
  sv_name : option string;
  filename : option string;
  hidden : option bool;
}.

(** Bit 15 of a GNU version index: [if index & 0x8000: index &= ~0x8000;
    symbol_version['hidden'] = True]. *)
Definition strip_hidden (ty : option scheme) (index : Z) : Z * option bool :=
  match ty with
  | Some GNU =>
      if bool_decide (Z.land index 0x8000 ≠ 0)%Z
      then (Z.land index (Z.lnot 0x8000), Some true)
      else (index, None)
  | _ => (index, None)
  end.

End Versions.

Record ElfInfo : Type := {
  elffile : Elf.ELFFile;
  _versioninfo : option Versions.VersionInfo;
  data : gmap string Report.Value;
  _verbose : bool;
}.

(** [self._init_versioninfo()]: fills the cache once; returns the object and
    the cached value. *)
Definition _init_versioninfo (self : ElfInfo) : ElfInfo * Versions.VersionInfo :=
  match _versioninfo self with
  | Some vi => (self, vi)
  | None =>
      let vi := Versions.scan_versioninfo (elffile self) in
      ({| elffile := elffile self; _versioninfo := Some vi;
          data := data self; _verbose := _verbose self |}, vi)
  end.

(** [self.data[key] = value] *)
Definition set_data (self : ElfInfo) (key : string) (value : Report.Value)
    : ElfInfo :=
  {| elffile := elffile self; _versioninfo := _versioninfo self;
     data := <[key := value]> (data self); _verbose := _verbose self |}.

(** ** [src/exentropy/__init__.py]: class [ElfInfo] *)

Module ExEntropy.
Import Elf Versions Report.

(** [ElfInfo.__init__] once [ELFFile(file)] has parsed the container. *)
Definition ElfInfo_init (elffile : ELFFile) (verbose : bool) : ElfInfo :=
  {| elffile := elffile; _versioninfo := None; data := ∅;
     _verbose := verbose |}.

(** [verneed, vernaux = self._versioninfo['verneed'].get_version(index)]:
    a missing section raises [AttributeError], unpacking the [None] returned
    for an unknown index raises [TypeError]. *)
Definition verneed_branch (vi : VersionInfo) (index : Z)
    : py (option string * option string) :=
  match verneed vi with
  | None => raise AttributeError
  | Some needs =>
      match verneed_get_version needs index with
      | None => raise TypeError
      | Some (vn, va) => ret (Some (vna_name va), Some (vn_file vn))
      end
  end.

(** [_, verdaux_iter = self._versioninfo['verdef'].get_version(index)] and
    [next(verdaux_iter).name]. *)
Definition verdef_branch (defs : list Verdef) (index : Z)
    : py (option string * option string) :=
  match verdef_get_version defs index with
  | None => raise TypeError
  | Some (_, verdaux_iter) =>
      match verdaux_iter with
      | [] => raise StopIteration
      | aux :: _ => ret (Some aux, None)
      end
  end.

(** The name lookup of [_symbol_version]: ([name], [filename]). *)
Definition resolve_name (vi : VersionInfo) (index : Z)
    : py (option string * option string) :=
  match verdef vi with
  | Some defs =>
      if bool_decide (index ≤ verdef_num_versions defs)%Z
      then verdef_branch defs index
      else verneed_branch vi index
  | None => verneed_branch vi index
  end.

(** The local dictionary [symbol_version] when control reaches the last
    statement of [_symbol_version]; [None] on the early [return None]. *)
Definition symbol_version_at_return (vi : VersionInfo) (nsym : nat)
    : py (option SymbolVersion) :=
  match versym vi with
  | None => ret None
  | Some entries =>
      match entries !! nsym with
      | None => ret None
      | Some VER_NDX_LOCAL =>
          ret (Some {| index := Some VER_NDX_LOCAL; sv_name := None;
                       filename := None; hidden := None |})
      | Some VER_NDX_GLOBAL =>
          ret (Some {| index := Some VER_NDX_GLOBAL; sv_name := None;
                       filename := None; hidden := None |})
      | Some VER_NDX_LORESERVE | Some VER_NDX_ELIMINATE =>
          raise ValueError
      | Some (VER_NDX_num raw) =>
          let '(index, hid) := strip_hidden (vtype vi) raw in
          (let* names := resolve_name vi index in
           ret (Some {| index := Some (VER_NDX_num index);
                        sv_name := names.1; filename := names.2;
                        hidden := hid |}))%py
      end
  end.

(** [_symbol_version]: the function ends in a bare [return], so the
    dictionary it has built is dropped. *)
Definition _symbol_version (vi : VersionInfo) (nsym : nat)
    : py (option SymbolVersion) :=
  (let* _ := symbol_version_at_return vi nsym in ret None)%py.

(** The classification at the end of the loop body of
    [display_symbol_tables]: [(imports, jexports)]. [PyStr.int] raises
    nothing but the [ValueError] that the [except] clause swallows. *)
Definition classify (acc : gset string * gset string) (symbol : Symbol)
    : gset string * gset string :=
  let t := describe_symbol_type (st_info_type symbol) in
  if bool_decide (t = "FUNC") then
    let x := describe_symbol_shndx (st_shndx_ symbol) in
    let imports :=
      if bool_decide (x = "UND") then {[ name symbol ]} ∪ acc.1 else acc.1 in
    match PyStr.int x with
    | inr _ =>
        if PyStr.startswith (name symbol) "Java_"
        then (imports, {[ name symbol ]} ∪ acc.2)
        else (imports, acc.2)
    | inl _ => (imports, acc.2)
    end
  else acc.

(** The body of [for nsym, symbol in enumerate(section.iter_symbols())]; the
    lines it prints are not modelled, the call that may raise is. *)
Definition symbol_step (vi : VersionInfo) (shtype : sh_type)
    (acc : py (gset string * gset string)) (entry : nat * Symbol)
    : py (gset string * gset string) :=
  (let* st := acc in
   let* version :=
     (if bool_decide (shtype = SHT_DYNSYM ∧ vtype vi = Some GNU)
      then _symbol_version vi entry.1
      else ret None) in
   ret (classify st entry.2))%py.

(** The body of [for section in symbol_tables]. *)
Definition table_step (vi : VersionInfo)
    (acc : py (gset string * gset string)) (section : Section)
    : py (gset string * gset string) :=
  (let* st := acc in
   match kind section with
   | SymbolTableSection shtype sh_entsize symbols =>
       if bool_decide (sh_entsize = 0%N) then ret st
       else foldl (symbol_step vi shtype) (ret st) (imap pair symbols)
   | _ => ret st
   end)%py.

Definition display_symbol_tables (self : ElfInfo) : py ElfInfo :=
  let '(self, vi) := _init_versioninfo self in
  (let* sets := foldl (table_step vi) (ret (∅, ∅)) (sections (elffile self)) in
   ret (set_data (set_data self "imports" (VNames sets.1))
          "jexports" (VNames sets.2)))%py.

(** The inner loop of [display_dynamic_tags]. *)
Definition needed_step (shlib : gset string) (tag : DynamicTag) : gset string :=
  if bool_decide (d_tag tag = DT_NEEDED) then {[ needed tag ]} ∪ shlib
  else shlib.

Definition dynamic_step (self : ElfInfo) (section : Section) : ElfInfo :=
  match kind section with
  | DynamicSection tags =>
      set_data self "shlib" (VNames (foldl needed_step ∅ tags))
  | _ => self
  end.

Definition display_dynamic_tags (self : ElfInfo) : ElfInfo :=
  foldl dynamic_step self (sections (elffile self)).

(** [compute_entropy] is [Entropy.compute_entropy]. *)
Definition section_step (acc : py (list Region)) (section : Section)
    : py (list Region) :=
  (let* regions := acc in
   if bool_decide (sec_name section ≠ "") then
     let* entropy := Entropy.compute_entropy (sec_data section) in
     ret (regions ++ [{| r_name := NameStr (sec_name section);
                         r_size := sh_size section;
                         r_flags := sh_flags section; entro := entropy |}])
   else ret regions)%py.

(** ["name": segment.header["p_type"]] *)
Definition name_of_p_type (t : Elf.p_type_value) : RegionName :=
  match t with
  | PT_name s => NameStr s
  | PT_num n => NameInt n
  end.

(** [segment.header["p_type"][3:]], an argument of the line [print_infos]
    formats for [_emitline]; it is evaluated whether or not the object is
    verbose, and a number cannot be sliced. *)
Definition p_type_suffix (t : Elf.p_type_value) : py string :=
  match t with
  | PT_name s => ret (String.substring 3 (String.length s - 3) s)
  | PT_num _ => raise TypeError
  end.

(** The body of the segment loop of [print_infos]. *)
Definition segment_step (acc : py (list Region)) (segment : Segment)
    : py (list Region) :=
  (let* regions := acc in
   let* entropy := Entropy.compute_entropy (seg_data segment) in
   let* line_name := p_type_suffix (p_type segment) in
   ret (regions ++ [{| r_name := name_of_p_type (p_type segment);
                       r_size := p_memsz segment;
                       r_flags := p_flags segment; entro := entropy |}]))%py.

Definition print_infos (self : ElfInfo) : py ElfInfo :=
  let self := display_dynamic_tags self in
  (let* secs := foldl section_step (ret []) (sections (elffile self)) in
   let self := set_data self "sections" (VRegions secs) in
   let* segs := foldl segment_step (ret []) (segments (elffile self)) in
   ret (set_data self "segments" (VRegions segs)))%py.

End ExEntropy.

(** ** [src/exentropy/searchexports.py]: class [ElfInfo] *)

Module SearchExports.
Import Elf Versions Report.

Definition ElfInfo_init (elffile : ELFFile) (verbose : bool) : ElfInfo :=
  {| elffile := elffile; _versioninfo := None;
     data := {[ "arch" := VInt (elfclass elffile) ]};
     _verbose := verbose |}.

(** The loop body of [display_symbol_tables]: [(imports, exports)]. Nothing
    inside the [try] can raise. *)
Definition classify (acc : gset string * gset string) (symbol : Symbol)
    : gset string * gset string :=
  let sym_type := describe_symbol_type (st_info_type symbol) in
  if bool_decide (sym_type = "FUNC") then
    let desc := describe_symbol_shndx (st_shndx_ symbol) in
    let imports :=
      if bool_decide (desc = "UND") then {[ name symbol ]} ∪ acc.1 else acc.1 in
    (imports, {[ name symbol ]} ∪ acc.2)
  else acc.

Definition table_step (acc : gset string * gset string) (section : Section)
    : gset string * gset string :=
  match kind section with
  | SymbolTableSection shtype sh_entsize symbols =>
      if bool_decide (sh_entsize = 0%N) then acc
      else foldl classify acc symbols
  | _ => acc
  end.

Definition display_symbol_tables (self : ElfInfo) : ElfInfo :=
  let '(self, vi) := _init_versioninfo self in
  let sets := foldl table_step (∅, ∅) (sections (elffile self)) in
  set_data (set_data self "imports" (VNames sets.1)) "exports" (VNames sets.2).

(** [verdaux_iter = ....get_version(index)] then [next(verdaux_iter)]:
    neither a tuple nor [None] is an iterator. *)
Definition verdef_branch (defs : list Verdef) (index : Z)
    : py (option string * option string) :=
  raise TypeError.

Definition resolve_name (vi : VersionInfo) (index : Z)
    : py (option string * option string) :=
  match verdef vi with
  | Some defs =>
      if bool_decide (index ≤ verdef_num_versions defs)%Z
      then verdef_branch defs index
      else ExEntropy.verneed_branch vi index
  | None => ExEntropy.verneed_branch vi index
  end.

Definition symbol_version_at_return (vi : VersionInfo) (nsym : nat)
    : py (option SymbolVersion) :=
  match versym vi with
  | None => ret None
  | Some entries =>
      match entries !! nsym with
      | None => ret None
      | Some VER_NDX_LOCAL =>
          ret (Some {| index := Some VER_NDX_LOCAL; sv_name := None;
                       filename := None; hidden := None |})
      | Some VER_NDX_GLOBAL =>
          ret (Some {| index := Some VER_NDX_GLOBAL; sv_name := None;
                       filename := None; hidden := None |})
      | Some VER_NDX_LORESERVE | Some VER_NDX_ELIMINATE =>
          raise ValueError
      | Some (VER_NDX_num raw) =>
          let '(index, hid) := strip_hidden (vtype vi) raw in
          (let* names := resolve_name vi index in
           ret (Some {| index := Some (VER_NDX_num index);
                        sv_name := names.1; filename := names.2;
                        hidden := hid |}))%py
      end
  end.

(** [_symbol_version] has no [return] after its last assignment. *)
Definition _symbol_version (vi : VersionInfo) (nsym : nat)
    : py (option SymbolVersion) :=
  (let* _ := symbol_version_at_return vi nsym in ret None)%py.

Definition dynamic_step (self : ElfInfo) (section : Section) : ElfInfo :=
  match kind section with
  | DynamicSection tags =>
      set_data self "shlib" (VNames (foldl ExEntropy.needed_step ∅ tags))
  | _ => self
  end.

Definition collect_sharedlib (self : ElfInfo) : ElfInfo :=
  foldl dynamic_step self (sections (elffile self)).

(** The body of the segment loop of [collect_sections_segments]; the line
    that [__init__.py] formats is a comment here. *)
Definition segment_step (acc : py (list Region)) (segment : Segment)
    : py (list Region) :=
  (let* regions := acc in
   let* entropy := Entropy.compute_entropy (seg_data segment) in
   ret (regions ++ [{| r_name := ExEntropy.name_of_p_type (p_type segment);
                       r_size := p_memsz segment;
                       r_flags := p_flags segment; entro := entropy |}]))%py.

Definition collect_sections_segments (self : ElfInfo) : py ElfInfo :=
  (let* secs :=
     foldl ExEntropy.section_step (ret []) (sections (elffile self)) in
   let self := set_data self "sections" (VRegions secs) in
   let* segs := foldl segment_step (ret []) (segments (elffile self)) in
   ret (set_data self "segments" (VRegions segs)))%py.

Definition get_infos (self : ElfInfo) : py ElfInfo :=
  (let* self := collect_sections_segments self in
   ret (display_symbol_tables (collect_sharedlib self)))%py.

End SearchExports.

(** ** [src/main.py]: the upload endpoint *)

Module Web.
Import Report.

(** The class that [from exentropy import ElfInfo] binds is the one of
    [exentropy/__init__.py]. A method call [obj.m()] first looks [m] up in
    that class; each of its methods returns [None]. *)
Inductive PyValue : Type :=
  | PyNone
  | PyDict (d : gmap string Value).

Definition ElfInfo_call (self : ElfInfo) (method : string)
    : py (ElfInfo * PyValue) :=
  if bool_decide (method = "display_symbol_tables") then
    (let* self := ExEntropy.display_symbol_tables self in ret (self, PyNone))%py
  else if bool_decide (method = "display_dynamic_tags") then
    ret (ExEntropy.display_dynamic_tags self, PyNone)
  else if bool_decide (method = "print_infos") then
    (let* self := ExEntropy.print_infos self in ret (self, PyNone))%py
  else raise AttributeError.

(** An uploaded file: [request.files[...]]. *)
Record FileStorage : Type := {
  fs_filename : string;
  fs_stream : list byte;
}.

Record Request : Type := {
  files : gmap string FileStorage;
}.

(** werkzeug's exceptions raised by the view. *)
Inductive HTTPException : Type := BadRequest | InternalServerError.

Inductive Body : Type :=
  | ErrorBody (message : string)
  | JsonBody (v : PyValue).

Record Response : Type := {
  body : Body;
  status : Z;
}.

(** [@app.errorhandler(400)] and [@app.errorhandler(500)] *)
Definition bad_request : Response :=
  {| body := ErrorBody "Error 400 - Bad Request"; status := 400 |}.

Definition internal_error : Response :=
  {| body := ErrorBody "Error 500 - Internal Server Error"; status := 500 |}.

Section View.

(** [ELFFile(file)] of pyelftools: parses the bytes or raises. *)
Variable ELFFile : list byte → py Elf.ELFFile.

(** [elf.save(tmp_path)] followed by [open(tmp_path, 'rb')]: the bytes read
    back from the temporary file, or the error of the file system. *)
Variable save_and_open : FileStorage → py (list byte).

(** The body of the [try] block of [submit_elf]. *)
Definition analyse (elf : FileStorage) : py Response :=
  (let* tmp_file := save_and_open elf in
   let* elffile := ELFFile tmp_file in
   let elf_info := ExEntropy.ElfInfo_init elffile false in
   let* r := ElfInfo_call elf_info "get_infos" in
   let* d := ElfInfo_call r.1 "get_data" in
   ret {| body := JsonBody d.2; status := 200 |})%py.

Definition submit_elf (request : Request) : HTTPException + Response :=
  match files request !! "file" with
  | None => inl BadRequest
  | Some elf =>
      if bool_decide (PyStr.strip (fs_filename elf) = "") then inl BadRequest
      else
        match analyse elf with
        | inr response => inr response
        | inl _ => inl InternalServerError
        end
  end.

(** The response Flask sends: the view's, or the error handler's. *)
Definition dispatch (request : Request) : Response :=
  match submit_elf request with
  | inr response => response
  | inl BadRequest => bad_request
  | inl InternalServerError => internal_error
  end.

End View.

End Web.

(** ** The classification and the needed libraries, as the specification
    words them *)

Module Spec.
Import Elf.

Definition is_func (s : Symbol) : bool :=
  match st_info_type s with STT_FUNC => true | _ => false end.

(** The defining-section index is the sentinel "undefined". *)
Definition is_undefined (s : Symbol) : bool :=
  match st_shndx_ s with SHN_UNDEF => true | _ => false end.

(** The defining-section index is a number, none of the sentinels: the
    index the code takes for a defining section. That a section with this
    number exists is not checked, neither here nor in the code. *)
Definition is_defined (s : Symbol) : bool :=
  match st_shndx_ s with SHN_num _ => true | _ => false end.

(** The entries of a symbol table with nonzero entry size. *)
Definition table_symbols (section : Section) : list Symbol :=
  match kind section with
  | SymbolTableSection _ sh_entsize symbols =>
      if bool_decide (sh_entsize = 0%N) then [] else symbols
  | _ => []
  end.

(** The [FUNC] entries of all scanned symbol tables. *)
Definition func_symbols (elffile : ELFFile) : list Symbol :=
  filter (λ s, is_func s = true) (sections elffile ≫= table_symbols).

(** A [FUNC] entry that the classifier counts as an import. *)
Definition imported (s : Symbol) : bool := is_func s && is_undefined s.

(** A [FUNC] entry that the classifier counts as a JNI export. *)
Definition jni_exported (s : Symbol) : bool :=
  is_func s && is_defined s && PyStr.startswith (name s) "Java_".

Definition names_where (P : Symbol → bool) (l : list Symbol) : gset string :=
  list_to_set (name <$> filter (λ s, P s = true) l).

(** The tag lists of the dynamic sections, in section order. *)
Definition dynamic_tag_lists (secs : list Section) : list (list DynamicTag) :=
  omap (λ section,
          match kind section with
          | DynamicSection tags => Some tags
          | _ => None
          end) secs.

Definition dynamic_sections (elffile : ELFFile) : list (list DynamicTag) :=
  dynamic_tag_lists (sections elffile).

(** The NEEDED entries of a dynamic section. *)
Definition needed_entries (tags : list DynamicTag) : list string :=
  needed <$> filter (λ tag, d_tag tag = DT_NEEDED) tags.

(** "Every name in [jniExports] starts with [Java_] and is a member of the
    exports set produced by the same run", read on the dictionary
    [self.data] a run leaves behind. *)
Definition jni_within_exports (data : gmap string Report.Value) : Prop :=
  ∀ J, data !! "jexports" = Some (Report.VNames J) →
    ∃ E, data !! "exports" = Some (Report.VNames E) ∧
      ∀ n, n ∈ J → PyStr.startswith n "Java_" = true ∧ n ∈ E.

(** "No name appears in both the imports set and the exports set produced by
    the same run." *)
Definition imports_exports_disjoint (data : gmap string Report.Value) : Prop :=
  ∀ I E, data !! "imports" = Some (Report.VNames I) →
    data !! "exports" = Some (Report.VNames E) → I ## E.

End Spec.

(** ** Containers used as concrete inputs *)

Module Samples.
Import Elf.

Definition symtab (shtype : sh_type) (symbols : list Symbol) : Section :=
  {| sec_name := ".dynsym"; sh_size := 0; sh_flags := 2; sec_data := [];
     kind := SymbolTableSection shtype 24 symbols |}.

Definition plain (k : SectionKind) : Section :=
  {| sec_name := ".s"; sh_size := 0; sh_flags := 0; sec_data := [];
     kind := k |}.

Definition container (secs : list Section) : ELFFile :=
  {| elfclass := 64; sections := secs; segments := [] |}.

(** One undefined [FUNC] symbol [printf]. *)
Definition printf_elf : ELFFile :=
  container
    [symtab SHT_SYMTAB
       [{| name := "printf"; st_info_type := STT_FUNC;
           st_shndx_ := SHN_UNDEF |}]].

(** One [FUNC] symbol [Java_com_x_y_foo] defined in section 12. *)
Definition jni_elf : ELFFile :=
  container
    [symtab SHT_SYMTAB
       [{| name := "Java_com_x_y_foo"; st_info_type := STT_FUNC;
           st_shndx_ := SHN_num 12 |}]].

(** A container without a dynamic section. *)
Definition static_elf : ELFFile := container [plain PlainSection].

(** GNU versioning: two version definitions, one needed file, and a versym
    table whose entry 1 is version 2 with the hidden bit set and whose entry
    2 is index 7, known to neither table. *)
Definition gnu_sections : list Section :=
  [plain (DynamicSection [{| d_tag := DT_VERSYM; needed := "" |};
                          {| d_tag := DT_NEEDED; needed := "libc.so.6" |}]);
   plain (GNUVerSymSection
            [VER_NDX_LOCAL; VER_NDX_num 0x8002; VER_NDX_num 7]);
   plain (GNUVerDefSection
            [{| vd_ndx := 1; verdaux := ["libfoo.so"] |};
             {| vd_ndx := 2; verdaux := ["FOO_1.0"] |}]);
   plain (GNUVerNeedSection
            [{| vn_file := "libc.so.6";
                vernaux := [{| vna_other := 3; vna_name := "GLIBC_2.4" |}] |}])].

Definition gnu_elf : ELFFile :=
  container
    (gnu_sections ++
     [symtab SHT_DYNSYM
        [{| name := ""; st_info_type := STT_NOTYPE; st_shndx_ := SHN_UNDEF |};
         {| name := "foo"; st_info_type := STT_FUNC; st_shndx_ := SHN_num 9 |};
         {| name := "bar"; st_info_type := STT_FUNC;
            st_shndx_ := SHN_UNDEF |}]]).

(** A 32-bit container: the null section, a text section of four bytes, a
    symbol table with an undefined [printf], a [Java_] function and a helper
    defined in section 1 and an object, and one loadable segment. *)
Definition mixed_elf : ELFFile :=
  {| elfclass := 32;
     sections :=
       [{| sec_name := ""; sh_size := 0; sh_flags := 0; sec_data := [];
           kind := PlainSection |};
        {| sec_name := ".text"; sh_size := 4; sh_flags := 6;
           sec_data := [x55; x89; xe5; xc3]; kind := PlainSection |};
        symtab SHT_SYMTAB
          [{| name := "printf"; st_info_type := STT_FUNC;
              st_shndx_ := SHN_UNDEF |};
           {| name := "Java_com_x_y_foo"; st_info_type := STT_FUNC;
              st_shndx_ := SHN_num 1 |};
           {| name := "helper"; st_info_type := STT_FUNC;
              st_shndx_ := SHN_num 1 |};
           {| name := "table"; st_info_type := STT_OBJECT;
              st_shndx_ := SHN_num 1 |}]];
     segments :=
       [{| p_type := PT_name "PT_LOAD"; p_memsz := 4; p_flags := 5;
           seg_data := [x55; x89; xe5; xc3] |}] |}.

(** Sixteen distinct byte values. *)
Definition sixteen : list byte :=
  [x00; x01; x02; x03; x04; x05; x06; x07;
   x08; x09; x0a; x0b; x0c; x0d; x0e; x0f].

End Samples.

(** ** [ElfInfo._format_hex] (the same in both source files) *)

Module Format.

(** ['%x' % addr] for a non-negative integer: lower-case hexadecimal. *)
Definition hex_of_N (addr : N) : string :=
  HexadecimalString.NilEmpty.string_of_uint (N.to_hex_uint addr).

Fixpoint zeros (n : nat) : string :=
  match n with
  | O => EmptyString
  | S n' => String "0"%char (zeros n')
  end.

(** [('%' + '0%sx' % fieldsize) % addr]: for a non-negative [fieldsize] the
    digits are padded with zeros on the left; a negative [fieldsize] puts a
    minus sign after the [0] flag, which left-justifies in that width and
    pads with spaces. *)
Definition format_0wx (fieldsize : Z) (addr : N) : string :=
  let d := hex_of_N addr in
  if (0 <=? fieldsize)%Z
  then String.app (zeros (Z.to_nat fieldsize - String.length d)) d
  else String.app d (PyStr.spaces (Z.to_nat (- fieldsize) - String.length d)).

(** [addr] is an unsigned field of the container. [fieldsize - 2] on the
    default [None] raises [TypeError]. *)
Definition _format_hex (elfclass : Z) (addr : N) (fieldsize : option Z)
    (fullhex lead0x alternate : bool) : py string :=
  (let* st :=
     (if alternate then
        if bool_decide (addr = 0%N) then ret (false, fieldsize)
        else
          match fieldsize with
          | None => raise TypeError
          | Some w => ret (true, Some (w - 2)%Z)
          end
      else ret (lead0x, fieldsize)) in
   let s := if st.1 : bool then "0x" else "" in
   let fieldsize :=
     if fullhex
     then Some (if bool_decide (elfclass = 32%Z) then 8%Z else 16%Z)
     else st.2 in
   let field :=
     match fieldsize with
     | None => hex_of_N addr
     | Some w => format_0wx w addr
     end in
   ret (String.app s field))%py.

(** [int(s, 16)] on hexadecimal digits. *)
Definition int16 (s : string) : option N :=
  N.of_hex_uint <$> HexadecimalString.NilEmpty.uint_of_string s.

End Format.

(** ** The entries of ["sections"] and ["segments"], in closed form *)

Module Regions.
Import Elf Report.

Definition region_of_section (section : Section) : Region :=
  {| r_name := NameStr (sec_name section); r_size := sh_size section;
     r_flags := sh_flags section;
     entro := Entropy.shannon_entropy (sec_data section) |}.

Definition region_of_segment (segment : Segment) : Region :=
  {| r_name := ExEntropy.name_of_p_type (p_type segment);
     r_size := p_memsz segment;
     r_flags := p_flags segment;
     entro := Entropy.shannon_entropy (seg_data segment) |}.

Definition named_sections (elffile : ELFFile) : list Section :=
  filter (λ section, sec_name section ≠ "") (sections elffile).

(** The entry [r] is the one the code writes for [section]: name, size and
    flags of the header, and the value [compute_entropy] returns for the
    data. *)
Definition describes_section (section : Section) (r : Region) : Prop :=
  r_name r = NameStr (sec_name section) ∧
  r_size r = sh_size section ∧
  r_flags r = sh_flags section ∧
  Entropy.compute_entropy (sec_data section) = ret (entro r).

Definition describes_segment (segment : Segment) (r : Region) : Prop :=
  r_name r = ExEntropy.name_of_p_type (p_type segment) ∧
  r_size r = p_memsz segment ∧
  r_flags r = p_flags segment ∧
  Entropy.compute_entropy (seg_data segment) = ret (entro r).

(** The segment type is a name, so that [print_infos] can slice it. *)
Definition named_type (segment : Segment) : bool :=
  match p_type segment with PT_name _ => true | PT_num _ => false end.

End Regions.

(** ** The batch scripts: [searchexports.py] run as a program, and
    [import_extractor.py] *)

Module Batch.
Import Report.

(** A file met by [os.walk]: what [ELFFile(open(file_path, 'rb'))] gives, the
    parsed container or the exception of [open] or of the parser. *)
Definition candidate : Type := py Elf.ELFFile.

(** The body of the inner loop of [searchexports.py]: any exception skips the
    file; otherwise every element of [elf.data['exports']] is added. *)
Definition exports_step (result_set : gset string) (file : candidate)
    : gset string :=
  match file with
  | inl _ => result_set
  | inr elffile =>
      let elf :=
        SearchExports.display_symbol_tables
          (SearchExports.ElfInfo_init elffile false) in
      match data elf !! "exports" with
      | Some (VNames names) => result_set ∪ names
      | _ => result_set
      end
  end.

(** The set [searchexports.py] writes out, one name per line. *)
Definition extract_exports (files : list candidate) : gset string :=
  foldl exports_step ∅ files.

(** The body of the inner loop of [import_extractor.py]; its [ElfInfo] is
    the one of [__init__.py], on which it calls [get_infos]. *)
Definition imports_step (result_set : gset string) (file : candidate)
    : gset string :=
  match (let* elffile := file in
         let* r := Web.ElfInfo_call (ExEntropy.ElfInfo_init elffile false)
                     "get_infos" in
         ret r.1)%py with
  | inl _ => result_set
  | inr elf =>
      match data elf !! "imports" with
      | Some (VNames names) => result_set ∪ names
      | _ => result_set
      end
  end.

(** The set [import_extractor.py] writes out. *)
Definition extract_imports (files : list candidate) : gset string :=
  foldl imports_step ∅ files.

End Batch.

(** ** Version information, in closed form *)

Module VersionSpec.
Import Elf Versions.

(** Some dynamic section carries a [DT_VERSYM] tag. *)
Definition has_versym_tag (secs : list Section) : bool :=
  existsb (λ section,
             match kind section with
             | DynamicSection tags =>
                 existsb (λ tag, bool_decide (d_tag tag = DT_VERSYM)) tags
             | _ => false
             end) secs.

Definition versym_sections (secs : list Section) : list (list versym_ndx) :=
  omap (λ section,
          match kind section with
          | GNUVerSymSection e => Some e
          | _ => None
          end) secs.

Definition verdef_sections (secs : list Section) : list (list Verdef) :=
  omap (λ section,
          match kind section with
          | GNUVerDefSection d => Some d
          | _ => None
          end) secs.

Definition verneed_sections (secs : list Section) : list (list Verneed) :=
  omap (λ section,
          match kind section with
          | GNUVerNeedSection n => Some n
          | _ => None
          end) secs.

(** The [VerNeed] table knows the index. *)
Definition verneed_resolves (vi : VersionInfo) (index : Z) : bool :=
  match verneed vi with
  | Some needs => bool_decide (is_Some (verneed_get_version needs index))
  | None => false
  end.

(** The [VerDef] table has the index, with a first auxiliary record. *)
Definition verdef_resolves (defs : list Verdef) (index : Z) : bool :=
  match verdef_get_version defs index with
  | Some (_, _ :: _) => true
  | _ => false
  end.

(** The name lookup of [_symbol_version] finds the index. *)
Definition resolves (vi : VersionInfo) (index : Z) : bool :=
  match verdef vi with
  | Some defs =>
      if bool_decide (index ≤ verdef_num_versions defs)%Z
      then verdef_resolves defs index
      else verneed_resolves vi index
  | None => verneed_resolves vi index
  end.

End VersionSpec.

(** * Properties *)

(** ** Entropy calculator *)

Section EntropyFacts.
Import Entropy.
#[local] Existing Instance Entropy.byte_eq_decision.

Lemma byte_key_to_N b : byte_key b = Z.of_N (Byte.to_N b).
Proof.
  unfold byte_key, unpack_h.
  pose proof (Byte.to_N_bounded b) as Hb.
  change (Byte.to_N x00) with 0%N.
  replace (Z.of_N (to_N b) + 256 * Z.of_N 0)%Z with (Z.of_N (to_N b)) by lia.
  destruct (Z.ltb_spec (Z.of_N (to_N b)) 32768); lia.
Qed.

Lemma byte_key_inj b1 b2 : byte_key b1 = byte_key b2 → b1 = b2.
Proof.
  rewrite !byte_key_to_N. intros H.
  apply N2Z.inj in H.
  assert (Some b1 = Some b2) as [= ->]; [|done].
  by rewrite <- !Byte.of_to_N, H.
Qed.

Lemma all_bytes_complete b : b ∈ all_bytes.
Proof. destruct b; apply (bool_decide_unpack _); by vm_compute. Qed.

Lemma all_bytes_NoDup : NoDup all_bytes.
Proof.
  apply (NoDup_fmap_1 Byte.to_N), (bool_decide_unpack _). by vm_compute.
Qed.

Lemma count_snoc B b v :
  count (B ++ [b]) v = (count B v + (if decide (b = v) then 1 else 0))%nat.
Proof.
  unfold count. rewrite count_occ_app. simpl.
  destruct (byte_eq_dec b v), (decide (b = v)); done.
Qed.

Lemma count_bytes_snoc B b :
  count_bytes (B ++ [b]) = count_step (count_bytes B) b.
Proof. unfold count_bytes. by rewrite foldl_app. Qed.

(** The dictionary built by the first loop holds exactly the positive
    counts of the byte values of the buffer. *)
Lemma count_bytes_lookup B v :
  count_bytes B !! byte_key v =
    match count B v with 0%nat => None | S n => Some (S n) end.
Proof.
  induction B as [|b B IH] using rev_ind; [done|].
  rewrite count_bytes_snoc, count_snoc. unfold count_step.
  destruct (decide (b = v)) as [->|Hne].
  - rewrite IH, Nat.add_1_r.
    destruct (count B v) as [|n]; by rewrite lookup_insert_eq.
  - assert (byte_key b ≠ byte_key v) by (intros ?%byte_key_inj; done).
    rewrite Nat.add_0_r.
    destruct (count_bytes B !! byte_key b); by rewrite lookup_insert_ne.
Qed.

Lemma count_bytes_dom B i c :
  count_bytes B !! i = Some c → ∃ v, i = byte_key v.
Proof.
  revert c. induction B as [|b B IH] using rev_ind; intros c; [done|].
  rewrite count_bytes_snoc. unfold count_step.
  destruct (decide (byte_key b = i)) as [<-|Hne]; [by eexists|].
  destruct (count_bytes B !! byte_key b);
    rewrite lookup_insert_ne by done; apply IH.
Qed.

Lemma count_bytes_items B :
  map_to_list (count_bytes B) ≡ₚ (λ v, (byte_key v, count B v)) <$> occurring B.
Proof.
  apply NoDup_Permutation.
  - apply NoDup_map_to_list.
  - apply NoDup_fmap_2; [|apply NoDup_filter, all_bytes_NoDup].
    intros v1 v2 [= H%byte_key_inj _]. done.
  - intros [i c]. rewrite elem_of_map_to_list, list_elem_of_fmap. split.
    + intros Hic. destruct (count_bytes_dom _ _ _ Hic) as [v ->].
      rewrite count_bytes_lookup in Hic. exists v.
      destruct (count B v) as [|n] eqn:Hc; [done|]. injection Hic as <-.
      split; [done|].
      apply list_elem_of_filter. split; [lia | apply all_bytes_complete].
    + intros (v & [= -> ->] & [Hc _]%list_elem_of_filter).
      rewrite count_bytes_lookup. by destruct (count B v).
Qed.

(** *** Sums of reals over lists *)

Lemma Rsum_nil : Rsum [] = 0%R.
Proof. done. Qed.

Lemma Rsum_cons x l : Rsum (x :: l) = (x + Rsum l)%R.
Proof. done. Qed.

Ltac rsum_step := rewrite ?fmap_cons, ?fmap_nil, ?Rsum_cons, ?Rsum_nil.

Lemma Rsum_perm l1 l2 : l1 ≡ₚ l2 → Rsum l1 = Rsum l2.
Proof. induction 1; rsum_step; lra. Qed.

Lemma Rsum_scal {A} (f : A → R) c (l : list A) :
  Rsum ((λ x, f x / c)%R <$> l) = (Rsum (f <$> l) / c)%R.
Proof. induction l as [|x l IH]; rsum_step; [lra|]. rewrite IH. lra. Qed.

Lemma Rsum_nonpos {A} (f : A → R) (l : list A) :
  (∀ x, x ∈ l → (f x <= 0)%R) → (Rsum (f <$> l) <= 0)%R.
Proof.
  induction l as [|x l IH]; intros Hl; rsum_step; [lra|].
  pose proof (Hl x ltac:(left)).
  pose proof (IH ltac:(intros; apply Hl; by right)).
  lra.
Qed.

Lemma Rsum_INR (l : list nat) : Rsum (INR <$> l) = INR (sum_list l).
Proof.
  induction l as [|x l IH]; rsum_step; [done|].
  rewrite IH. simpl sum_list. by rewrite plus_INR.
Qed.

(** *** The second loop *)

Lemma entropy_step_value n a kv :
  n ≠ 0%nat → entropy_step n (ret a) kv = ret (a - term n kv)%R.
Proof.
  intros Hn. unfold entropy_step, term, float_div, math_log, log2. simpl.
  pose proof (not_0_INR _ Hn) as Hn'.
  destruct (Req_dec_T (INR n) 0) as [|_]; [done|]. simpl.
  destruct (Rlt_dec 0 (INR kv.2 / INR n)) as [Hp|Hp]; simpl; [done|].
  unfold ret. f_equal.
  assert (INR kv.2 = 0)%R as ->; [|lra].
  destruct kv.2 as [|c]; [done|]. exfalso. apply Hp.
  apply Rdiv_lt_0_compat; apply lt_0_INR; lia.
Qed.

Lemma entropy_loop_from n a items :
  n ≠ 0%nat →
  foldl (entropy_step n) (ret a) items = ret (a - Rsum (term n <$> items))%R.
Proof.
  intros Hn. revert a.
  induction items as [|kv items IH]; intros a; rsum_step.
  - unfold ret. simpl. f_equal. lra.
  - change (foldl ?f ?x (kv :: items)) with (foldl f (f x kv) items).
    rewrite entropy_step_value, IH by done. unfold ret. f_equal. lra.
Qed.

(** The order in which the dictionary is enumerated is irrelevant. *)
Lemma entropy_loop_perm n items items' :
  n ≠ 0%nat → items ≡ₚ items' → entropy_loop n items = entropy_loop n items'.
Proof.
  intros Hn Hp. unfold entropy_loop. rewrite !entropy_loop_from by done.
  by rewrite (Rsum_perm _ _ (fmap_Permutation (term n) _ _ Hp)).
Qed.

Lemma occurring_nil : occurring [] = [].
Proof. by vm_compute. Qed.

Lemma count_bytes_nil : count_bytes [] = ∅.
Proof. done. Qed.

(** The code computes the formula of the specification, and never raises. *)
Lemma compute_entropy_shannon B : compute_entropy B = ret (shannon_entropy B).
Proof.
  unfold compute_entropy, shannon_entropy.
  destruct B as [|b B].
  - rewrite count_bytes_nil, map_to_list_empty, occurring_nil. simpl.
    unfold entropy_loop, ret. simpl. f_equal. lra.
  - set (T := b :: B). assert (length T ≠ 0%nat) as Hn by done.
    rewrite (entropy_loop_perm _ _ _ Hn (count_bytes_items T)).
    unfold entropy_loop. rewrite entropy_loop_from by done.
    rewrite <- list_fmap_compose. unfold ret. f_equal.
    unfold compose, term, prob. simpl. lra.
Qed.

(** *** Probabilities sum to one *)

Lemma occurring_elem B v : v ∈ occurring B ↔ count B v ≠ 0%nat.
Proof.
  unfold occurring. rewrite list_elem_of_filter.
  pose proof (all_bytes_complete v). tauto.
Qed.

Lemma occurring_NoDup B : NoDup (occurring B).
Proof. apply NoDup_filter, all_bytes_NoDup. Qed.

Lemma elem_occurring B v : v ∈ B → v ∈ occurring B.
Proof.
  rewrite occurring_elem, list_elem_of_In. unfold count.
  rewrite (count_occ_In byte_eq_dec). lia.
Qed.

Lemma indicator_sum_absent (a : byte) (D : list byte) :
  a ∉ D → sum_list ((λ v, if decide (a = v) then 1 else 0)%nat <$> D) = 0%nat.
Proof.
  induction D as [|d D IH]; [done|].
  intros [Hne Hd]%not_elem_of_cons. rewrite fmap_cons. simpl sum_list.
  rewrite IH by done. by destruct (decide (a = d)).
Qed.

Lemma indicator_sum (a : byte) (D : list byte) :
  NoDup D → a ∈ D →
  sum_list ((λ v, if decide (a = v) then 1 else 0)%nat <$> D) = 1%nat.
Proof.
  induction 1 as [|d D Hd HD IH]; intros Ha; [by apply elem_of_nil in Ha|].
  rewrite fmap_cons. simpl sum_list.
  destruct (decide (a = d)) as [->|Hne].
  - by rewrite indicator_sum_absent.
  - apply elem_of_cons in Ha as [?|?]; [done|]. by apply IH.
Qed.

Lemma sum_list_plus {A} (f g : A → nat) (l : list A) :
  sum_list ((λ x, f x + g x)%nat <$> l) =
    (sum_list (f <$> l) + sum_list (g <$> l))%nat.
Proof.
  induction l as [|x l IH]; [done|].
  rewrite !fmap_cons. simpl sum_list. rewrite IH. lia.
Qed.

(** Summing the counts over any duplicate-free list that covers the buffer
    gives the length of the buffer. *)
Lemma count_sum B (D : list byte) :
  NoDup D → (∀ v, v ∈ B → v ∈ D) → sum_list (count B <$> D) = length B.
Proof.
  intros HD. induction B as [|b B IH]; intros Hcov.
  - clear. induction D as [|d D IHD]; [done|].
    rewrite fmap_cons. exact IHD.
  - assert (∀ v, count (b :: B) v =
              (count B v + (if decide (b = v) then 1 else 0))%nat) as Hc.
    { intros v. unfold count. simpl.
      destruct (byte_eq_dec b v), (decide (b = v)); try done; lia. }
    rewrite (list_fmap_ext _ _ D (λ _ v _, Hc v)).
    rewrite sum_list_plus, IH, indicator_sum; simpl; try done; [lia| |].
    + apply Hcov. by left.
    + intros v Hv. apply Hcov. by right.
Qed.

Lemma prob_sum B : B ≠ [] → Rsum (prob B <$> occurring B) = 1%R.
Proof.
  intros HB. unfold prob.
  rewrite (Rsum_scal (λ v, INR (count B v))), (list_fmap_compose (count B) INR).
  rewrite Rsum_INR, count_sum;
    [|apply occurring_NoDup|apply elem_occurring].
  apply Rdiv_diag. apply not_0_INR. by destruct B.
Qed.

Lemma prob_pos B v : v ∈ occurring B → (0 < prob B v <= 1)%R.
Proof.
  intros Hv%occurring_elem. unfold prob.
  pose proof (count_occ_bound byte_eq_dec v B) as Hle. fold (count B v) in Hle.
  assert (0 < INR (count B v))%R by (apply lt_0_INR; lia).
  assert (INR (count B v) <= INR (length B))%R by (by apply le_INR).
  split; [apply Rdiv_lt_0_compat; lra|].
  unfold Rdiv. rewrite <- (Rinv_r (INR (length B))) by lra.
  apply Rmult_le_compat_r; [left; apply Rinv_0_lt_compat|]; lra.
Qed.

(** *** Logarithms, and the number of distinct byte values *)

Lemma ln_le_sub1 x : (0 < x)%R → (ln x <= x - 1)%R.
Proof.
  intros Hx. pose proof (exp_ineq1_le (x - 1)) as He.
  replace (1 + (x - 1))%R with x in He by lra.
  destruct He as [Hlt|Heq].
  - apply ln_increasing in Hlt; [|done]. rewrite ln_exp in Hlt. lra.
  - rewrite Heq at 1. rewrite ln_exp. lra.
Qed.

Lemma ln2_pos : (0 < ln 2)%R.
Proof. pose proof ln_lt_2. lra. Qed.

Lemma length_occurring B : (length (occurring B) <= 256)%nat.
Proof. unfold occurring. apply (length_filter _ all_bytes). Qed.

(** *** The histogram determines the result *)

Lemma count_bytes_ext B1 B2 :
  (∀ v, count B1 v = count B2 v) → count_bytes B1 = count_bytes B2.
Proof.
  intros Hc. apply map_eq. intros i.
  destruct (count_bytes B1 !! i) as [c1|] eqn:H1.
  - destruct (count_bytes_dom _ _ _ H1) as [v ->].
    rewrite <- H1, !count_bytes_lookup. by rewrite Hc.
  - destruct (count_bytes B2 !! i) as [c2|] eqn:H2; [|done].
    destruct (count_bytes_dom _ _ _ H2) as [v ->].
    rewrite <- H1, <- H2, !count_bytes_lookup. by rewrite Hc.
Qed.

Lemma count_bytes_counts B1 B2 v :
  count_bytes B1 = count_bytes B2 → count B1 v = count B2 v.
Proof.
  intros Hm. pose proof (count_bytes_lookup B1 v) as H1.
  rewrite Hm, count_bytes_lookup in H1.
  destruct (count B1 v), (count B2 v); congruence.
Qed.

(** *** Closed forms *)

Lemma shannon_over B (D : list byte) :
  NoDup D → (∀ v, v ∈ D ↔ count B v ≠ 0%nat) →
  shannon_entropy B = (- Rsum ((λ v, prob B v * log2 (prob B v)) <$> D))%R.
Proof.
  intros HD Hel. unfold shannon_entropy. f_equal.
  apply Rsum_perm, fmap_Permutation, NoDup_Permutation;
    [apply occurring_NoDup|done|].
  intros v. by rewrite occurring_elem, Hel.
Qed.

Lemma Rsum_const {A} (f : A → R) c (l : list A) :
  (∀ x, x ∈ l → f x = c) → Rsum (f <$> l) = (INR (length l) * c)%R.
Proof.
  induction l as [|x l IH]; intros Hl; rsum_step; [simpl; lra|].
  rewrite length_cons, S_INR, IH, (Hl x) by (by constructor || (intros; apply Hl; by right)).
  lra.
Qed.

Lemma count_replicate n (b v : byte) :
  count (replicate n b) v = if decide (b = v) then n else 0%nat.
Proof.
  unfold count. induction n as [|n IH]; simpl; [by destruct (decide _)|].
  rewrite IH. destruct (byte_eq_dec b v), (decide (b = v)); done.
Qed.

Lemma shannon_replicate n b : shannon_entropy (replicate n b) = 0%R.
Proof.
  destruct n as [|n].
  { unfold shannon_entropy. simpl replicate. rewrite occurring_nil.
    rsum_step. lra. }
  rewrite (shannon_over _ [b]).
  - rsum_step. unfold prob. rewrite count_replicate, length_replicate.
    rewrite decide_True by done. rewrite Rdiv_diag by (by apply not_0_INR).
    unfold log2, Rdiv. rewrite ln_1, Rmult_0_l. lra.
  - apply NoDup_singleton.
  - intros v. rewrite count_replicate, list_elem_of_singleton.
    destruct (decide (b = v)); split; intros; done.
Qed.

Lemma count_NoDup B v : NoDup B → v ∈ B → count B v = 1%nat.
Proof.
  intros HB Hv. unfold count.
  apply NoDup_ListNoDup in HB.
  pose proof (proj1 (NoDup_count_occ byte_eq_dec B) HB v) as Hle.
  apply list_elem_of_In in Hv.
  pose proof (proj1 (count_occ_In byte_eq_dec B v) Hv) as Hgt.
  lia.
Qed.

Lemma shannon_distinct B :
  NoDup B → B ≠ [] → shannon_entropy B = log2 (INR (length B)).
Proof.
  intros HB Hne.
  assert (0 < INR (length B))%R as Hn by (apply lt_0_INR; destruct B; simpl; [done|lia]).
  rewrite (shannon_over B B HB).
  - rewrite (Rsum_const _ (/ INR (length B) * log2 (/ INR (length B)))%R).
    + unfold log2. rewrite ln_Rinv by done. field.
      split; [pose proof ln2_pos|]; lra.
    + intros v Hv. unfold prob. rewrite count_NoDup by done. simpl. 
      by rewrite Rdiv_1_l.
  - intros v. rewrite list_elem_of_In. unfold count.
    rewrite (count_occ_In byte_eq_dec). lia.
Qed.

Lemma log2_16 : log2 16 = 4%R.
Proof.
  unfold log2. replace 16%R with (2 ^ 4)%R by lra.
  rewrite ln_pow by lra. simpl. field. pose proof ln2_pos. lra.
Qed.

End EntropyFacts.

(** ** Strings *)

Section PyStrFacts.
Import PyStr.

Lemma digit_not_space a : is_Some (Ascii.is_nat a) → Ascii.is_space a = false.
Proof.
  destruct a as [[] [] [] [] [] [] [] []]; simpl; intros [? ?]; done.
Qed.

Lemma digit_not_sign a :
  is_Some (Ascii.is_nat a) → Ascii.eqb a "-" = false ∧ Ascii.eqb a "+" = false.
Proof.
  destruct a as [[] [] [] [] [] [] [] []]; simpl; intros [? ?]; done.
Qed.

Lemma is_digits_string_of_uint u : is_digits (NilEmpty.string_of_uint u) = true.
Proof. induction u; simpl; rewrite ?IHu; done. Qed.

Lemma lstrip_digits s : is_digits s = true → lstrip s = s.
Proof.
  destruct s as [|a s]; [done|]. simpl.
  intros [Ha%bool_decide_eq_true _]%andb_true_iff.
  by rewrite digit_not_space.
Qed.

Lemma rev_app_rev_app s1 s2 s3 :
  String.rev_app (String.rev_app s1 s2) s3
  = String.rev_app s2 (String.app s1 s3).
Proof.
  revert s2 s3. induction s1 as [|a s1 IH]; intros s2 s3; [done|].
  simpl. by rewrite IH.
Qed.

Lemma rev_rev s : String.rev (String.rev s) = s.
Proof.
  unfold String.rev. rewrite rev_app_rev_app. simpl.
  induction s as [|a s IH]; [done|]. unfold String.app in *. simpl.
  by rewrite IH.
Qed.

Lemma is_digits_rev_app s1 s2 :
  is_digits s1 = true → is_digits s2 = true →
  is_digits (String.rev_app s1 s2) = true.
Proof.
  revert s2. induction s1 as [|a s1 IH]; intros s2; [done|]. simpl.
  intros [Ha H1]%andb_true_iff H2. apply IH; [done|]. simpl.
  by rewrite Ha, H2.
Qed.

Lemma rstrip_digits s : is_digits s = true → rstrip s = s.
Proof.
  intros Hs. unfold rstrip. rewrite lstrip_digits, rev_rev; [done|].
  by apply is_digits_rev_app.
Qed.

Lemma lstrip_spaces k s : lstrip (String.app (spaces k) s) = lstrip s.
Proof. induction k as [|k IH]; [done|]. exact IH. Qed.

Lemma strip_rjust w s : is_digits s = true → strip (rjust w s) = s.
Proof.
  intros Hs. unfold strip, rjust.
  by rewrite lstrip_spaces, lstrip_digits, rstrip_digits.
Qed.

(** [int('%3s' % n)] gives [n] back. *)
Lemma int_rjust_str n : int (rjust 3 (str_of_N n)) = ret (Z.of_N n).
Proof.
  unfold int. rewrite strip_rjust by apply is_digits_string_of_uint.
  pose proof (is_digits_string_of_uint (N.to_uint n)) as Hd.
  pose proof (NilEmpty.usu (N.to_uint n)) as Hu.
  unfold str_of_N.
  destruct (NilEmpty.string_of_uint (N.to_uint n)) as [|c d] eqn:Hs.
  - exfalso. destruct n as [|p]; [done|]. simpl in Hs.
    pose proof (DecimalPos.Unsigned.to_uint_nonnil p) as Hn.
    destruct (Pos.to_uint p); done.
  - simpl in Hd. apply andb_true_iff in Hd as [Hc%bool_decide_eq_true _].
    destruct (digit_not_sign c Hc) as [-> ->].
    unfold digits. rewrite Hu. by rewrite DecimalN.Unsigned.of_to.
Qed.

End PyStrFacts.

(** ** Import/export classifier *)

Section ClassifierFacts.
Import Elf Report Spec Versions.

Lemma is_func_describe s :
  describe_symbol_type (st_info_type s) = "FUNC" ↔ is_func s = true.
Proof. unfold is_func. destruct (st_info_type s); simpl; split; done. Qed.

Lemma describe_UND s :
  describe_symbol_shndx (st_shndx_ s) = "UND" ↔ is_undefined s = true.
Proof.
  unfold is_undefined. destruct (st_shndx_ s) as [| | |n]; simpl; try done.
  split; [|done]. intros H.
  pose proof (strip_rjust 3 _ (is_digits_string_of_uint (N.to_uint n))) as Hs.
  fold (PyStr.str_of_N n) in Hs. rewrite H in Hs.
  pose proof (is_digits_string_of_uint (N.to_uint n)) as Hd.
  fold (PyStr.str_of_N n) in Hd. by rewrite <- Hs in Hd.
Qed.

(** [int(x)] succeeds exactly on the description of a section number. *)
Lemma int_describe s :
  PyStr.int (describe_symbol_shndx (st_shndx_ s)) =
    match st_shndx_ s with
    | SHN_num n => ret (Z.of_N n)
    | _ => raise ValueError
    end.
Proof.
  destruct (st_shndx_ s) as [| | |n]; simpl; try done. apply int_rjust_str.
Qed.

Lemma names_where_nil P : names_where P [] = ∅.
Proof. done. Qed.

Lemma names_where_cons P s l :
  names_where P (s :: l) =
    (if P s then {[ name s ]} else ∅) ∪ names_where P l.
Proof.
  unfold names_where. rewrite filter_cons.
  destruct (decide (P s = true)) as [->|HP].
  - by rewrite fmap_cons, list_to_set_cons.
  - destruct (P s); [done|]. set_solver.
Qed.

Lemma names_where_app P l1 l2 :
  names_where P (l1 ++ l2) = names_where P l1 ∪ names_where P l2.
Proof.
  unfold names_where. by rewrite filter_app, fmap_app, list_to_set_app_L.
Qed.

Lemma names_where_elem P l n :
  n ∈ names_where P l ↔ ∃ s, s ∈ l ∧ P s = true ∧ name s = n.
Proof.
  unfold names_where. rewrite elem_of_list_to_set, list_elem_of_fmap.
  split.
  - intros (s & -> & [? ?]%list_elem_of_filter). eauto.
  - intros (s & ? & ? & <-). exists s. by rewrite list_elem_of_filter.
Qed.

Lemma exentropy_classify acc s :
  ExEntropy.classify acc s =
    (acc.1 ∪ names_where imported [s],
     acc.2 ∪ names_where jni_exported [s]).
Proof.
  unfold ExEntropy.classify. rewrite int_describe.
  rewrite !names_where_cons, !names_where_nil. unfold imported, jni_exported.
  pose proof (is_func_describe s) as Hf. pose proof (describe_UND s) as Hu.
  destruct acc as [I J]. simpl.
  destruct (bool_decide_reflect (describe_symbol_type (st_info_type s) = "FUNC"))
    as [Ht|Ht].
  - apply Hf in Ht. rewrite Ht. simpl.
    destruct (bool_decide_reflect (describe_symbol_shndx (st_shndx_ s) = "UND"))
      as [Hd|Hd].
    + apply Hu in Hd. rewrite Hd. unfold is_defined, is_undefined in *.
      destruct (st_shndx_ s); try done. simpl. f_equal; set_solver.
    + assert (is_undefined s = false) as ->.
      { destruct (is_undefined s); [|done]. exfalso. by apply Hd, Hu. }
      unfold is_defined. 
      destruct (st_shndx_ s); simpl;
        try destruct (PyStr.startswith (name s) "Java_"); simpl;
        f_equal; set_solver.
  - assert (is_func s = false) as ->.
    { destruct (is_func s); [|done]. exfalso. by apply Ht, Hf. }
    simpl. f_equal; set_solver.
Qed.

Lemma searchexports_classify acc s :
  SearchExports.classify acc s =
    (acc.1 ∪ names_where imported [s],
     acc.2 ∪ names_where is_func [s]).
Proof.
  unfold SearchExports.classify.
  rewrite !names_where_cons, !names_where_nil. unfold imported.
  pose proof (is_func_describe s) as Hf. pose proof (describe_UND s) as Hu.
  destruct acc as [I J]. simpl.
  destruct (bool_decide_reflect (describe_symbol_type (st_info_type s) = "FUNC"))
    as [Ht|Ht].
  - apply Hf in Ht. rewrite Ht. simpl.
    destruct (bool_decide_reflect (describe_symbol_shndx (st_shndx_ s) = "UND"))
      as [Hd|Hd].
    + apply Hu in Hd. rewrite Hd. f_equal; set_solver.
    + assert (is_undefined s = false) as ->.
      { destruct (is_undefined s); [|done]. exfalso. by apply Hd, Hu. }
      f_equal; set_solver.
  - assert (is_func s = false) as ->.
    { destruct (is_func s); [|done]. exfalso. by apply Ht, Hf. }
    simpl. f_equal; set_solver.
Qed.

(** *** The loops of [searchexports.py] *)

Lemma searchexports_symbols acc l :
  foldl SearchExports.classify acc l =
    (acc.1 ∪ names_where imported l,
     acc.2 ∪ names_where is_func l).
Proof.
  revert acc. induction l as [|s l IH]; intros [I E].
  - rewrite !names_where_nil. simpl. f_equal; set_solver.
  - simpl foldl. rewrite IH, searchexports_classify, !(names_where_cons _ s l).
    rewrite !names_where_cons, !names_where_nil. simpl. f_equal; set_solver.
Qed.

Lemma searchexports_table acc section :
  SearchExports.table_step acc section =
    (acc.1 ∪ names_where imported (table_symbols section),
     acc.2 ∪ names_where is_func (table_symbols section)).
Proof.
  unfold SearchExports.table_step, table_symbols. destruct acc as [I E].
  destruct (kind section) as [t es syms| | | | |];
    try (rewrite !names_where_nil; simpl; f_equal; set_solver).
  destruct (bool_decide (es = 0%N)).
  - rewrite !names_where_nil. simpl. f_equal; set_solver.
  - apply searchexports_symbols.
Qed.

Lemma searchexports_tables acc secs :
  foldl SearchExports.table_step acc secs =
    (acc.1 ∪ names_where imported (secs ≫= table_symbols),
     acc.2 ∪ names_where is_func (secs ≫= table_symbols)).
Proof.
  revert acc. induction secs as [|section secs IH]; intros [I E].
  - rewrite !names_where_nil. simpl. f_equal; set_solver.
  - simpl foldl. rewrite IH, searchexports_table, bind_cons, !names_where_app.
    simpl. f_equal; set_solver.
Qed.

Lemma elffile_init_versioninfo self :
  elffile (_init_versioninfo self).1 = elffile self ∧
  data (_init_versioninfo self).1 = data self.
Proof. unfold _init_versioninfo. by destruct (_versioninfo self). Qed.

(** What [searchexports.py] stores: every [FUNC] name is an export, whether
    defined or not. *)
Lemma searchexports_display self :
  data (SearchExports.display_symbol_tables self) =
    <["exports" := VNames (names_where is_func
                             (sections (elffile self) ≫= table_symbols))]>
      (<["imports" := VNames (names_where imported (sections (elffile self) ≫= table_symbols))]>
         (data self)).
Proof.
  unfold SearchExports.display_symbol_tables.
  pose proof (elffile_init_versioninfo self) as [He Hd].
  destruct (_init_versioninfo self) as [self' vi]. simpl in *.
  rewrite searchexports_tables, He, Hd. simpl.
  by rewrite !(left_id_L ∅ (∪)).
Qed.

Lemma searchexports_imports_within_exports l :
  names_where imported l ⊆ names_where is_func l.
Proof.
  intros n (s & ? & [? ?]%andb_true_iff & ?)%names_where_elem.
  apply names_where_elem. eauto.
Qed.

(** *** The loops of [__init__.py] *)

Lemma symbol_step_ret vi t acc entry st' :
  ExEntropy.symbol_step vi t acc entry = ret st' →
  ∃ st, acc = ret st ∧ st' = ExEntropy.classify st entry.2.
Proof.
  unfold ExEntropy.symbol_step. destruct acc as [e|st]; [done|]. simpl.
  destruct (if bool_decide _ then _ else _) as [e|v]; [done|]. simpl.
  intros [= <-]. eauto.
Qed.

Lemma symbol_fold_ret vi t l acc st' :
  foldl (ExEntropy.symbol_step vi t) acc l = ret st' →
  ∃ st, acc = ret st ∧ st' = foldl ExEntropy.classify st l.*2.
Proof.
  revert acc. induction l as [|entry l IH]; intros acc; simpl.
  - intros ->. eauto.
  - intros (st1 & (st & -> & ->)%symbol_step_ret & ->)%IH. eauto.
Qed.

Lemma imap_pair_snd_gen {A} (f : nat → nat) (l : list A) :
  (imap (λ i x, (f i, x)) l).*2 = l.
Proof.
  revert f. induction l as [|x l IH]; intros f; [done|].
  rewrite imap_cons, fmap_cons. simpl. f_equal. apply (IH (f ∘ S)).
Qed.

Lemma imap_pair_snd {A} (l : list A) : (imap pair l).*2 = l.
Proof. apply (imap_pair_snd_gen (λ i, i)). Qed.

Lemma exentropy_symbols acc l :
  foldl ExEntropy.classify acc l =
    (acc.1 ∪ names_where imported l, acc.2 ∪ names_where jni_exported l).
Proof.
  revert acc. induction l as [|s l IH]; intros [I J].
  - rewrite !names_where_nil. simpl. f_equal; set_solver.
  - simpl foldl. rewrite IH, exentropy_classify, !(names_where_cons _ s l).
    rewrite !names_where_cons, !names_where_nil. simpl. f_equal; set_solver.
Qed.

Lemma table_step_ret vi acc section st' :
  ExEntropy.table_step vi acc section = ret st' →
  ∃ st, acc = ret st ∧
    st' = (st.1 ∪ names_where imported (table_symbols section),
           st.2 ∪ names_where jni_exported (table_symbols section)).
Proof.
  unfold ExEntropy.table_step, table_symbols.
  destruct acc as [e|[I J]]; [done|]. simpl.
  destruct (kind section) as [t es syms| | | | |];
    try (intros [= <-]; exists (I, J); rewrite !names_where_nil; simpl;
         split; [done|f_equal; set_solver]).
  destruct (bool_decide (es = 0%N)).
  - intros [= <-]. exists (I, J). rewrite !names_where_nil. simpl.
    split; [done|f_equal; set_solver].
  - intros (st & [= <-] & ->)%symbol_fold_ret. exists (I, J).
    by rewrite imap_pair_snd, exentropy_symbols.
Qed.

Lemma table_fold_ret vi secs acc st' :
  foldl (ExEntropy.table_step vi) acc secs = ret st' →
  ∃ st, acc = ret st ∧
    st' = (st.1 ∪ names_where imported (secs ≫= table_symbols),
           st.2 ∪ names_where jni_exported (secs ≫= table_symbols)).
Proof.
  revert acc. induction secs as [|section secs IH]; intros acc; simpl foldl.
  - intros ->. exists st'. rewrite !names_where_nil. destruct st'. simpl.
    split; [done|f_equal; set_solver].
  - intros (st1 & (st & -> & ->)%table_step_ret & ->)%IH. exists st.
    rewrite bind_cons, !names_where_app. simpl.
    split; [done|f_equal; set_solver].
Qed.

(** What a run of [__init__.py] that returns has stored: [imports] and
    [jexports], nothing else. *)
Lemma exentropy_display self self' :
  ExEntropy.display_symbol_tables self = ret self' →
  elffile self' = elffile self ∧
  data self' =
    <["jexports" := VNames (names_where jni_exported
                              (sections (elffile self) ≫= table_symbols))]>
      (<["imports" := VNames (names_where imported
                                (sections (elffile self) ≫= table_symbols))]>
         (data self)).
Proof.
  unfold ExEntropy.display_symbol_tables.
  pose proof (elffile_init_versioninfo self) as [He Hd].
  destruct (_init_versioninfo self) as [self1 vi]. simpl in *.
  destruct (foldl _ _ _) as [e|sets] eqn:Hfold; [done|]. simpl.
  intros [= <-]. apply table_fold_ret in Hfold as (st & [= <-] & ->).
  simpl. rewrite He, Hd. by rewrite !(left_id_L ∅ (∪)).
Qed.

End ClassifierFacts.



(** ** Needed libraries *)

Section SharedLibFacts.
Import Elf Report Spec.

Lemma needed_fold S tags :
  foldl ExEntropy.needed_step S tags = S ∪ list_to_set (needed_entries tags).
Proof.
  unfold needed_entries. revert S.
  induction tags as [|tag tags IH]; intros S; simpl foldl.
  - set_solver.
  - rewrite IH. unfold ExEntropy.needed_step. rewrite filter_cons.
    destruct (decide (d_tag tag = DT_NEEDED)) as [Ht|Ht].
    + rewrite bool_decide_eq_true_2 by done. set_solver.
    + rewrite bool_decide_eq_false_2 by done. set_solver.
Qed.

Lemma set_data_twice self k v1 v2 :
  set_data (set_data self k v1) k v2 = set_data self k v2.
Proof. unfold set_data. simpl. by rewrite insert_insert_eq. Qed.

Lemma dynamic_tag_lists_snoc secs x :
  dynamic_tag_lists (secs ++ [x]) =
    dynamic_tag_lists secs ++
      match kind x with DynamicSection tags => [tags] | _ => [] end.
Proof.
  unfold dynamic_tag_lists. rewrite omap_app. f_equal. simpl.
  by destruct (kind x).
Qed.

(** Each dynamic section overwrites ["shlib"]; the last one stays. *)
Lemma exentropy_dynamic_fold self secs :
  foldl ExEntropy.dynamic_step self secs =
    match last (dynamic_tag_lists secs) with
    | Some tags =>
        set_data self "shlib" (VNames (list_to_set (needed_entries tags)))
    | None => self
    end.
Proof.
  induction secs as [|x secs IH] using rev_ind; [done|].
  rewrite foldl_snoc, dynamic_tag_lists_snoc, IH.
  unfold ExEntropy.dynamic_step.
  destruct (kind x) as [| tags | | | |]; rewrite ?app_nil_r; try done.
  rewrite last_snoc, needed_fold, (left_id_L ∅ (∪)).
  destruct (last (dynamic_tag_lists secs)); [apply set_data_twice|done].
Qed.

Lemma searchexports_dynamic_fold self secs :
  foldl SearchExports.dynamic_step self secs =
    foldl ExEntropy.dynamic_step self secs.
Proof. done. Qed.

End SharedLibFacts.

(** ** Symbol version resolver *)

Section VersionFacts.
Import Elf Versions.

(** Whatever [_symbol_version] has computed, it hands back [None]. *)
Lemma exentropy_symbol_version_None vi nsym r :
  ExEntropy._symbol_version vi nsym = ret r → r = None.
Proof.
  unfold ExEntropy._symbol_version.
  destruct (ExEntropy.symbol_version_at_return vi nsym); simpl; [done|].
  by intros [= <-].
Qed.

Lemma searchexports_symbol_version_None vi nsym r :
  SearchExports._symbol_version vi nsym = ret r → r = None.
Proof.
  unfold SearchExports._symbol_version.
  destruct (SearchExports.symbol_version_at_return vi nsym); simpl; [done|].
  by intros [= <-].
Qed.

(** Bit 15 set under GNU versioning: the flag is recorded and cleared. *)
Lemma strip_hidden_set raw :
  Z.testbit raw 15 = true →
  strip_hidden (Some GNU) raw = (Z.clearbit raw 15, Some true).
Proof.
  intros Hb. unfold strip_hidden.
  rewrite bool_decide_eq_true_2.
  - f_equal; change 0x8000%Z with (2 ^ 15)%Z;
      by rewrite <- Z.ldiff_land, <- Z.clearbit_spec'.
  - intros H0. apply (f_equal (λ z, Z.testbit z 15)) in H0.
    by rewrite Z.land_spec, Hb in H0.
Qed.

End VersionFacts.

(** ** Upload endpoint *)

Section WebFacts.
Import Web.

Lemma call_get_infos self :
  ElfInfo_call self "get_infos" = raise AttributeError.
Proof. done. Qed.

Lemma analyse_raises ELFFile save_and_open elf :
  ∃ e, analyse ELFFile save_and_open elf = raise e.
Proof.
  unfold analyse. destruct (save_and_open elf) as [e|tmp]; [by exists e|].
  unfold bind at 1. destruct (ELFFile tmp) as [e|elffile]; [by exists e|].
  unfold bind at 1. rewrite call_get_infos. by eexists.
Qed.

Lemma dispatch_cases ELFFile save_and_open request :
  dispatch ELFFile save_and_open request = bad_request ∨
  dispatch ELFFile save_and_open request = internal_error.
Proof.
  unfold dispatch, submit_elf.
  destruct (files request !! "file") as [elf|]; [|by left].
  destruct (bool_decide _); [by left|].
  destruct (analyse_raises ELFFile save_and_open elf) as [e ->]. by right.
Qed.

(** The two validation failures are answered by the 400 handler. *)
Lemma missing_file_is_400 ELFFile save_and_open request :
  files request !! "file" = None →
  dispatch ELFFile save_and_open request = bad_request.
Proof. intros H. unfold dispatch, submit_elf. by rewrite H. Qed.

Lemma blank_filename_is_400 ELFFile save_and_open request elf :
  files request !! "file" = Some elf →
  PyStr.strip (fs_filename elf) = "" →
  dispatch ELFFile save_and_open request = bad_request.
Proof.
  intros H Hs. unfold dispatch, submit_elf. rewrite H.
  by rewrite bool_decide_eq_true_2.
Qed.

End WebFacts.

(** * The claims *)

Section Claims.
Import Entropy Elf Report Spec Versions Samples Web.
#[local] Existing Instance Entropy.byte_eq_decision.

(** C1. Code defect ([searchexports.py]): the claim asks that an undefined
    [FUNC] entry goes to [imports] only and that no name is in both
    [imports] and [exports] of one run. On a table holding the single
    undefined [FUNC] symbol [printf], the run stores [printf] in both
    sets. *)
Theorem searchexports_printf_import_and_export :
  let self :=
    SearchExports.display_symbol_tables
      (SearchExports.ElfInfo_init printf_elf false) in
  func_symbols printf_elf
    = [{| name := "printf"; st_info_type := STT_FUNC;
          st_shndx_ := SHN_UNDEF |}] ∧
  data self !! "imports" = Some (VNames {[ "printf" ]}) ∧
  data self !! "exports" = Some (VNames {[ "printf" ]}) ∧
  ¬ imports_exports_disjoint (data self).
Proof.
  assert (data (SearchExports.display_symbol_tables
                  (SearchExports.ElfInfo_init printf_elf false)) !! "imports"
          = Some (VNames {[ "printf" ]})) as Hi by (by vm_compute).
  assert (data (SearchExports.display_symbol_tables
                  (SearchExports.ElfInfo_init printf_elf false)) !! "exports"
          = Some (VNames {[ "printf" ]})) as He by (by vm_compute).
  split; [by vm_compute|]. split; [done|]. split; [done|].
  intros Hdis. specialize (Hdis _ _ Hi He). set_solver.
Qed.

(** C3. Code defect: under GNU versioning, for the versym entry [0x8002] the
    code builds the descriptor the claim describes (hidden flag set, index 2
    with bit 15 cleared) and then returns [None]: [__init__.py] ends in a
    bare [return], [searchexports.py] raises before it gets there. *)
Theorem symbol_version_hidden_descriptor_dropped :
  let vi := scan_versioninfo gnu_elf in
  vtype vi = Some GNU ∧
  versym vi = Some [VER_NDX_LOCAL; VER_NDX_num 0x8002; VER_NDX_num 7] ∧
  ExEntropy.symbol_version_at_return vi 1
    = ret (Some {| index := Some (VER_NDX_num (Z.clearbit 0x8002 15));
                   sv_name := Some "FOO_1.0"; filename := None;
                   hidden := Some true |}) ∧
  ExEntropy._symbol_version vi 1 = ret None ∧
  SearchExports._symbol_version vi 1 = raise TypeError.
Proof. by vm_compute. Qed.

(** C4. Code defect: for a version index known to neither the [VerDef] nor
    the [VerNeed] table (here 7), [_symbol_version] raises [TypeError]
    instead of returning a descriptor without a name, and the exception
    aborts [display_symbol_tables]. *)
Theorem symbol_version_unknown_index_raises :
  let vi := scan_versioninfo gnu_elf in
  (∃ defs needs, verdef vi = Some defs ∧ verneed vi = Some needs ∧
     (verdef_num_versions defs < 7)%Z ∧ verneed_get_version needs 7 = None) ∧
  ExEntropy._symbol_version vi 2 = raise TypeError ∧
  SearchExports._symbol_version vi 2 = raise TypeError ∧
  ExEntropy.display_symbol_tables (ExEntropy.ElfInfo_init gnu_elf false)
    = raise TypeError.
Proof.
  split; [|by vm_compute].
  do 2 eexists. split; [by vm_compute|]. split; [by vm_compute|].
  split; [by vm_compute|done].
Qed.

(** C5, as stated, fails: a container without a dynamic section leaves the
    report without any ["shlib"] entry; it is not the empty set. *)
Lemma shlib_absent_without_dynamic_section :
  dynamic_sections static_elf = [] ∧
  data (SearchExports.collect_sharedlib
          (SearchExports.ElfInfo_init static_elf false)) !! "shlib"
    ≠ Some (VNames ∅) ∧
  data (ExEntropy.display_dynamic_tags
          (ExEntropy.ElfInfo_init static_elf false)) !! "shlib"
    ≠ Some (VNames ∅).
Proof. split; [done|]. split; by vm_compute. Qed.

(** C5, amended. With a dynamic section, ["shlib"] is exactly the set of its
    NEEDED entries (those of the last one, were there several); without
    one, the object is returned unchanged, so no ["shlib"] entry is written,
    and nothing is raised. Both source files agree. *)
Theorem shlib_of_last_dynamic_section (self : ElfInfo) :
  ExEntropy.display_dynamic_tags self = SearchExports.collect_sharedlib self ∧
  match last (dynamic_sections (elffile self)) with
  | Some tags =>
      data (SearchExports.collect_sharedlib self) !! "shlib"
        = Some (VNames (list_to_set (needed_entries tags))) ∧
      ∀ n, n ∈ (list_to_set (needed_entries tags) : gset string) ↔
           ∃ tag, tag ∈ tags ∧ d_tag tag = DT_NEEDED ∧ needed tag = n
  | None => SearchExports.collect_sharedlib self = self
  end.
Proof.
  split; [done|].
  unfold SearchExports.collect_sharedlib, dynamic_sections.
  rewrite searchexports_dynamic_fold, exentropy_dynamic_fold.
  destruct (last (dynamic_tag_lists (sections (elffile self)))) as [tags|];
    [|done].
  split; [apply lookup_insert_eq|].
  intros n. unfold needed_entries.
  rewrite elem_of_list_to_set, list_elem_of_fmap. split.
  - intros (tag & -> & [? ?]%list_elem_of_filter). eauto.
  - intros (tag & ? & ? & <-). exists tag. by rewrite list_elem_of_filter.
Qed.

(** C6, as stated, fails: the run of [__init__.py] that produces
    [jexports] produces no [exports] set, so [Java_com_x_y_foo] is in
    [jexports] without being in any exports set of that run. *)
Lemma jexports_without_exports :
  ∃ self',
    ExEntropy.display_symbol_tables (ExEntropy.ElfInfo_init jni_elf false)
      = ret self' ∧
    data self' !! "jexports" = Some (VNames {[ "Java_com_x_y_foo" ]}) ∧
    data self' !! "exports" = None ∧
    ¬ jni_within_exports (data self').
Proof.
  eexists. split; [reflexivity|].
  split; [by vm_compute|]. split; [by vm_compute|].
  intros H. destruct (H {[ "Java_com_x_y_foo" ]}) as (E & HE & _);
    [by vm_compute|].
  by vm_compute in HE.
Qed.

(** C6, amended. When a run of [__init__.py] returns, every name in its
    [jexports] starts with [Java_] and names a [FUNC] entry of a scanned
    symbol table whose section index is a number, that is, none of the
    sentinels [SHN_UNDEF], [SHN_ABS], [SHN_COMMON] (whether a section with
    that number exists is not checked); that run leaves ["exports"]
    untouched, and the name is in the [exports] set that the run of
    [searchexports.py] produces for the same object. *)
Theorem jexports_java_defined_funcs (self self' : ElfInfo) :
  ExEntropy.display_symbol_tables self = ret self' →
  data self' !! "exports" = data self !! "exports" ∧
  ∃ J, data self' !! "jexports" = Some (VNames J) ∧
    ∀ n, n ∈ J →
      PyStr.startswith n "Java_" = true ∧
      (∃ s k, s ∈ func_symbols (elffile self) ∧ st_shndx_ s = SHN_num k ∧
              name s = n) ∧
      ∃ E, data (SearchExports.display_symbol_tables self) !! "exports"
             = Some (VNames E) ∧ n ∈ E.
Proof.
  intros [_ Hd]%exentropy_display. rewrite Hd.
  split; [by rewrite !lookup_insert_ne|].
  eexists. split; [apply lookup_insert_eq|].
  intros n (s & Hs & [[Hf Hdef]%andb_true_iff Hj]%andb_true_iff & <-)
    %names_where_elem.
  split; [done|]. split.
  - unfold is_defined in Hdef.
    destruct (st_shndx_ s) as [| | |k] eqn:Hk; try done.
    exists s, k. split; [|done]. unfold func_symbols.
    by rewrite list_elem_of_filter.
  - rewrite searchexports_display. eexists.
    split; [apply lookup_insert_eq|].
    apply names_where_elem. eauto.
Qed.

Lemma jexports_java_defined_funcs_witness :
  let self := ExEntropy.ElfInfo_init jni_elf false in
  let self' :=
    match ExEntropy.display_symbol_tables self with
    | inr s => s
    | inl _ => self
    end in
  data self' !! "exports" = data self !! "exports" ∧
  ∃ J, data self' !! "jexports" = Some (VNames J) ∧
    ∀ n, n ∈ J →
      PyStr.startswith n "Java_" = true ∧
      (∃ s k, s ∈ func_symbols (elffile self) ∧ st_shndx_ s = SHN_num k ∧
              name s = n) ∧
      ∃ E, data (SearchExports.display_symbol_tables self) !! "exports"
             = Some (VNames E) ∧ n ∈ E.
Proof.
  apply (jexports_java_defined_funcs (ExEntropy.ElfInfo_init jni_elf false)).
  vm_compute. reflexivity.
Defined.

(** C7. Code defect: [main.py] calls [get_infos] and [get_data] on the
    [ElfInfo] of [exentropy/__init__.py], which defines neither, so an
    upload with a proper file name is answered with status 500 whatever the
    file holds, never with the report and status 200. *)
Theorem upload_of_valid_file_is_500
    (ELFFile : list byte → py Elf.ELFFile)
    (save_and_open : FileStorage → py (list byte)) (content : list byte) :
  let request :=
    {| files := {[ "file" := {| fs_filename := "libnative-lib.so";
                                fs_stream := content |} ]} |} in
  dispatch ELFFile save_and_open request = internal_error ∧
  status (dispatch ELFFile save_and_open request) = 500%Z ∧
  ∀ request',
    status (dispatch ELFFile save_and_open request') ≠ 200%Z.
Proof.
  assert (∀ request',
    status (dispatch ELFFile save_and_open request') ≠ 200%Z) as Hno.
  { intros r. by destruct (dispatch_cases ELFFile save_and_open r) as [-> | ->]. }
  simpl. split; [|split; [|done]].
  - unfold dispatch, submit_elf. simpl. rewrite lookup_singleton_eq.
    rewrite bool_decide_eq_false_2 by (by vm_compute).
    by destruct (analyse_raises ELFFile save_and_open
                   {| fs_filename := "libnative-lib.so";
                      fs_stream := content |}) as [e ->].
  - unfold dispatch, submit_elf. simpl. rewrite lookup_singleton_eq.
    rewrite bool_decide_eq_false_2 by (by vm_compute).
    by destruct (analyse_raises ELFFile save_and_open
                   {| fs_filename := "libnative-lib.so";
                      fs_stream := content |}) as [e ->].
Qed.

(** C8. A buffer made of zero or more repetitions of one byte value has
    entropy 0, the empty buffer included; a 16-byte buffer of 16 distinct
    byte values has entropy [log2 16 = 4]. *)
Theorem entropy_constant_and_distinct16 :
  (∀ (b : byte) (n : nat), compute_entropy (replicate n b) = ret 0%R) ∧
  (∀ B : list byte, length B = 16%nat → NoDup B →
     compute_entropy B = ret 4%R ∧ log2 16 = 4%R).
Proof.
  split.
  - intros b n. by rewrite compute_entropy_shannon, shannon_replicate.
  - intros B Hlen HB. split; [|apply log2_16].
    rewrite compute_entropy_shannon, shannon_distinct, Hlen;
      [|done|by destruct B].
    unfold ret. f_equal. rewrite <- log2_16. f_equal. simpl. lra.
Qed.

Lemma entropy_constant_and_distinct16_witness :
  compute_entropy (replicate 16 x00) = ret 0%R ∧
  compute_entropy [] = ret 0%R ∧
  compute_entropy sixteen = ret 4%R.
Proof.
  split; [apply (proj1 entropy_constant_and_distinct16 x00 16%nat)|].
  split; [apply (proj1 entropy_constant_and_distinct16 x00 0%nat)|].
  apply (proj2 entropy_constant_and_distinct16 sixteen).
  - reflexivity.
  - apply (bool_decide_unpack _). vm_compute. exact I.
Defined.

(** C9. [compute_entropy] is total: for every buffer it returns a value and
    raises neither [ZeroDivisionError] nor a domain error; the dictionary is
    empty exactly for the empty buffer, every division it performs has the
    nonzero divisor [len(text)], and the empty buffer yields the initial
    value 0. *)
Theorem compute_entropy_total (text : list byte) :
  (∃ r, compute_entropy text = ret r) ∧
  (count_bytes text = ∅ ↔ text = []) ∧
  (∀ kv, kv ∈ map_to_list (count_bytes text) →
     float_div (INR kv.2) (INR (length text))
       = ret (INR kv.2 / INR (length text))%R) ∧
  compute_entropy [] = ret 0%R.
Proof.
  split; [exists (shannon_entropy text); apply compute_entropy_shannon|].
  assert (count_bytes text = ∅ ↔ text = []) as Hempty.
  { split; [|by intros ->].
    destruct text as [|b text]; [done|]. intros Hm. exfalso.
    pose proof (count_bytes_lookup (b :: text) b) as Hl.
    rewrite Hm, lookup_empty in Hl. unfold count in Hl. simpl in Hl.
    by destruct (byte_eq_dec b b). }
  split; [done|]. split.
  - intros kv Hkv. unfold float_div.
    destruct (Req_dec_T (INR (length text)) 0) as [H0|]; [|done].
    exfalso. destruct text as [|b text].
    + rewrite count_bytes_nil, map_to_list_empty in Hkv. by inversion Hkv.
    + by apply (not_0_INR (length (b :: text))).
  - rewrite compute_entropy_shannon. unfold shannon_entropy.
    rewrite occurring_nil. unfold ret. f_equal. simpl. lra.
Qed.

End Claims.

(** * Further properties of the code *)

(** ** [compute_entropy] *)

Section EntropyMore.
Import Entropy.
#[local] Existing Instance Entropy.byte_eq_decision.

Lemma byte_key_range b : (0 ≤ byte_key b < 256)%Z.
Proof. rewrite byte_key_to_N. pose proof (Byte.to_N_bounded b). lia. Qed.

Lemma sum_list_items B :
  sum_list (map_to_list (count_bytes B)).*2 = length B.
Proof.
  rewrite (count_bytes_items B), <- list_fmap_compose.
  apply count_sum; [apply occurring_NoDup | apply elem_occurring].
Qed.

(** X1. The dictionary built by the first loop is the histogram of the
    buffer: the key of a byte value maps to its number of occurrences when
    that is positive and is absent otherwise, every key is a byte value
    between 0 and 255 with a positive count, and the counts add up to the
    length of the buffer. *)
Theorem count_bytes_histogram (B : list byte) :
  (∀ v, count_bytes B !! byte_key v
        = if decide (count B v = 0%nat) then None else Some (count B v)) ∧
  (∀ i c, count_bytes B !! i = Some c →
     (0 ≤ i < 256)%Z ∧ (0 < c)%nat ∧ ∃ v, i = byte_key v ∧ c = count B v) ∧
  sum_list (map_to_list (count_bytes B)).*2 = length B.
Proof.
  split; [|split; [|apply sum_list_items]].
  - intros v. rewrite count_bytes_lookup.
    destruct (count B v); by destruct (decide _).
  - intros i c Hic. destruct (count_bytes_dom _ _ _ Hic) as [v ->].
    rewrite count_bytes_lookup in Hic.
    split; [apply byte_key_range|].
    destruct (count B v) as [|n] eqn:Hc; [done|]. injection Hic as <-.
    split; [lia|]. by exists v.
Qed.

Lemma size_count_bytes B : size (count_bytes B) = length (occurring B).
Proof.
  rewrite <- length_map_to_list, (count_bytes_items B). apply length_fmap.
Qed.

(** X2. For a non-empty buffer the dictionary built by the first loop has
    at least one key and at most [min(256, len(text))] keys. *)
Theorem dictionary_size_bounds (B : list byte) :
  B ≠ [] →
  (0 < size (count_bytes B) ≤ Nat.min 256 (length B))%nat.
Proof.
  intros HB. rewrite size_count_bytes. split.
  - destruct B as [|b B]; [done|].
    assert (b ∈ occurring (b :: B)) as Hb by (apply elem_occurring; left).
    destruct (occurring (b :: B)); [inversion Hb|simpl; lia].
  - apply Nat.min_glb; [apply length_occurring|].
    rewrite <- (sum_list_items B), <- size_count_bytes, <- length_map_to_list.
    rewrite <- (length_fmap snd).
    assert (Forall (λ c, 1 ≤ c)%nat (map_to_list (count_bytes B)).*2) as Hc.
    { apply Forall_fmap, Forall_forall. intros [i c] Hic%elem_of_map_to_list.
      destruct (count_bytes_dom _ _ _ Hic) as [v ->].
      rewrite count_bytes_lookup in Hic. simpl.
      destruct (count B v); [done|]. injection Hic as <-. lia. }
    induction Hc as [|c l Hc _ IH]; simpl; lia.
Qed.

Lemma dictionary_size_bounds_witness :
  (0 < size (count_bytes [x41; x42; x41])
   ≤ Nat.min 256 (length [x41; x42; x41]))%nat.
Proof. apply (dictionary_size_bounds [x41; x42; x41]). done. Defined.

(** X3. Two buffers build the same dictionary exactly when they are
    permutations of each other: the dictionary records the multiset of the
    bytes and nothing of their order. *)
Theorem count_bytes_permutation_iff (B1 B2 : list byte) :
  count_bytes B1 = count_bytes B2 ↔ B1 ≡ₚ B2.
Proof.
  split.
  - intros Hm. apply (Permutation_count_occ byte_eq_dec).
    intros v. by apply count_bytes_counts.
  - intros Hp. apply count_bytes_ext. intros v.
    by apply (Permutation_count_occ byte_eq_dec).
Qed.

Lemma Rsum_zero_terms {A} (f : A → R) (l : list A) :
  (∀ x, x ∈ l → (f x <= 0)%R) → Rsum (f <$> l) = 0%R →
  ∀ x, x ∈ l → f x = 0%R.
Proof.
  induction l as [|a l IH]; intros Hle Hs x Hx; [by inversion Hx|].
  rewrite fmap_cons, Rsum_cons in Hs.
  pose proof (Hle a ltac:(left)) as Ha.
  pose proof (Rsum_nonpos f l ltac:(intros; apply Hle; by right)) as Hl.
  apply elem_of_cons in Hx as [->|Hx]; [lra|].
  apply IH; [intros; apply Hle; by right|lra|done].
Qed.

Lemma repeat_replicate {A} (x : A) n : repeat x n = replicate n x.
Proof. induction n as [|n IH]; simpl; by rewrite ?IH. Qed.

Lemma term_nonpos B v :
  v ∈ occurring B → (prob B v * log2 (prob B v) <= 0)%R.
Proof.
  intros Hv%prob_pos.
  assert (ln (prob B v) <= 0)%R by (pose proof (ln_le_sub1 (prob B v)); lra).
  unfold log2, Rdiv. pose proof (Rinv_0_lt_compat _ ln2_pos).
  assert (ln (prob B v) * / ln 2 <= 0)%R by nra.
  nra.
Qed.

(** X4. The result is 0 exactly for the buffers that repeat one byte value
    (the empty buffer among them): any second byte value makes the entropy
    positive. *)
Theorem entropy_zero_iff_constant (B : list byte) :
  compute_entropy B = ret 0%R ↔ ∃ b, B = replicate (length B) b.
Proof.
  split.
  - rewrite compute_entropy_shannon. intros [= H0].
    destruct B as [|b B]; [by exists x00|]. exists b.
    set (T := b :: B) in *.
    assert (b ∈ occurring T) as Hb by (apply elem_occurring; left).
    assert (Rsum ((λ v, prob T v * log2 (prob T v))%R <$> occurring T) = 0)%R
      as Hs by (unfold shannon_entropy in H0; lra).
    pose proof (Rsum_zero_terms _ _ (term_nonpos T) Hs b Hb) as Ht.
    simpl in Ht. destruct (prob_pos T b Hb) as [Hp _].
    assert (ln (prob T b) = 0)%R as Hln.
    { unfold log2, Rdiv in Ht. pose proof ln2_pos.
      apply Rmult_integral in Ht as [?|Ht]; [lra|].
      apply Rmult_integral in Ht as [?|Ht]; [done|].
      pose proof (Rinv_0_lt_compat _ ln2_pos). lra. }
    assert (prob T b = 1)%R as H1
      by (apply ln_inv; [done|lra|by rewrite ln_1]).
    assert (count T b = length T) as Hc.
    { unfold prob in H1. apply INR_eq.
      assert (INR (length T) ≠ 0)%R by (by apply not_0_INR).
      apply (Rmult_eq_reg_r (/ INR (length T)));
        [|by apply Rinv_neq_0_compat].
      rewrite Rinv_r by done. exact H1. }
    rewrite <- repeat_replicate. by apply (count_occ_unique byte_eq_dec).
  - intros [b ->]. by rewrite compute_entropy_shannon, shannon_replicate.
Qed.

Lemma count_copies k B v :
  count (mjoin (replicate k B)) v = (k * count B v)%nat.
Proof.
  unfold count. induction k as [|k IH]; [done|].
  simpl. rewrite count_occ_app, IH. done.
Qed.

Lemma length_copies {A} k (B : list A) :
  length (mjoin (replicate k B)) = (k * length B)%nat.
Proof.
  induction k as [|k IH]; [done|]. simpl. by rewrite length_app, IH.
Qed.

(** X5. Repeating a buffer does not change its entropy: for [k >= 1], the
    buffer [text * k] has the entropy of [text]. *)
Theorem entropy_of_repeated_buffer (k : nat) (B : list byte) :
  (0 < k)%nat →
  compute_entropy (mjoin (replicate k B)) = compute_entropy B.
Proof.
  intros Hk. rewrite !compute_entropy_shannon. f_equal.
  destruct B as [|b B].
  { assert (mjoin (replicate k (@nil byte)) = []) as ->; [|done].
    clear. induction k as [|k IH]; [done|]. exact IH. }
  set (T := b :: B).
  rewrite (shannon_over (mjoin (replicate k T)) (occurring T)).
  - unfold shannon_entropy. f_equal. f_equal. apply list_fmap_ext.
    intros _ v _.
    assert (prob (mjoin (replicate k T)) v = prob T v) as ->; [|done].
    unfold prob. rewrite count_copies, length_copies, !mult_INR.
    assert (INR k ≠ 0)%R by (apply not_0_INR; lia).
    assert (INR (length T) ≠ 0)%R by (by apply not_0_INR).
    by field.
  - apply occurring_NoDup.
  - intros v. rewrite occurring_elem, count_copies. nia.
Qed.

Lemma entropy_of_repeated_buffer_witness :
  compute_entropy (mjoin (replicate 3 [x41; x42]))
  = compute_entropy [x41; x42].
Proof. apply (entropy_of_repeated_buffer 3 [x41; x42]). lia. Defined.

End EntropyMore.

(** ** [_init_versioninfo] and [_symbol_version] *)

Section VersionMore.
Import Elf Versions VersionSpec.

Lemma versioninfo_fold secs :
  foldl versioninfo_step
    {| versym := None; verdef := None; verneed := None; vtype := None |} secs
  = {| versym := last (versym_sections secs);
       verdef := last (verdef_sections secs);
       verneed := last (verneed_sections secs);
       vtype := if has_versym_tag secs then Some GNU else None |}.
Proof.
  induction secs as [|x secs IH] using rev_ind; [done|].
  rewrite foldl_snoc, IH. clear IH.
  unfold versioninfo_step, versym_sections, verdef_sections,
    verneed_sections, has_versym_tag.
  rewrite !omap_app, existsb_app. simpl.
  destruct (kind x) as [| tags | | | |]; simpl;
    rewrite ?app_nil_r, ?last_snoc, ?orb_false_r; try done.
  destruct (existsb _ tags); simpl; [|by rewrite orb_false_r].
  by rewrite orb_true_r.
Qed.

Lemma scan_versioninfo_value (elffile : ELFFile) :
  let secs := sections elffile in
  scan_versioninfo elffile
  = {| versym := last (versym_sections secs);
       verdef := last (verdef_sections secs);
       verneed := last (verneed_sections secs);
       vtype :=
         if has_versym_tag secs then Some GNU
         else if bool_decide (verneed_sections secs ≠ [] ∨
                              verdef_sections secs ≠ [])
              then Some Solaris else None |}.
Proof.
  simpl. unfold scan_versioninfo. rewrite versioninfo_fold. simpl.
  destruct (has_versym_tag (sections elffile)); [done|].
  assert (∀ {A} (l : list A), is_Some (last l) ↔ l ≠ []) as Hlast.
  { intros A l. destruct l as [|a l] using rev_ind; [by split; [intros []|]|].
    rewrite last_snoc. split; [by destruct l|by eexists]. }
  destruct (bool_decide_reflect
              (is_Some (last (verneed_sections (sections elffile))) ∨
               is_Some (last (verdef_sections (sections elffile)))))
    as [H|H];
    rewrite !Hlast in H.
  - by rewrite bool_decide_eq_true_2.
  - by rewrite bool_decide_eq_false_2.
Qed.

(** X6. The versioning scheme is GNU exactly when some dynamic section
    carries a [DT_VERSYM] tag; otherwise it is Solaris when a version
    definition or a version requirement section exists, and there is none
    when neither does. Each of [versym], [verdef] and [verneed] is the last
    section of its class, if any. *)
Theorem scan_versioninfo_closed_form (elffile : ELFFile) :
  let secs := sections elffile in
  scan_versioninfo elffile
  = {| versym := last (versym_sections secs);
       verdef := last (verdef_sections secs);
       verneed := last (verneed_sections secs);
       vtype :=
         if has_versym_tag secs then Some GNU
         else if bool_decide (verneed_sections secs ≠ [] ∨
                              verdef_sections secs ≠ [])
              then Some Solaris else None |}.
Proof. apply scan_versioninfo_value. Qed.

Lemma bit15_iff raw :
  (0 ≤ raw < 65536)%Z → Z.testbit raw 15 = true ↔ (32768 ≤ raw)%Z.
Proof.
  intros Hr. rewrite Z.testbit_true by lia. change (2 ^ 15)%Z with 32768%Z.
  assert (raw `div` 32768 = 0 ∨ raw `div` 32768 = 1)%Z as [H|H].
  { assert (0 ≤ raw `div` 32768 < 2)%Z; [|lia].
    split; [apply Z.div_pos; lia|apply Z.div_lt_upper_bound; lia]. }
  - rewrite H. split; [done|]. intros ?.
    apply Z.div_small_iff in H; lia.
  - rewrite H. split; [|done]. intros _.
    destruct (Z.le_gt_cases 32768 raw) as [|Hlt]; [done|].
    rewrite Z.div_small in H by lia. done.
Qed.

Lemma land_bit15 raw :
  Z.land raw 0x8000 = if Z.testbit raw 15 then 0x8000%Z else 0%Z.
Proof.
  apply Z.bits_inj'. intros n Hn. rewrite Z.land_spec.
  change 0x8000%Z with (2 ^ 15)%Z. rewrite Z.pow2_bits_eqb by lia.
  destruct (Z.eqb_spec 15 n) as [<-|Hne].
  - destruct (Z.testbit raw 15); [by rewrite Z.pow2_bits_true|].
    by rewrite Z.bits_0.
  - rewrite andb_false_r.
    destruct (Z.testbit raw 15);
      [by rewrite Z.pow2_bits_false|by rewrite Z.bits_0].
Qed.

(** X7. For a 16-bit version index: under GNU versioning the effective
    index is the index modulo [0x8000] and the hidden flag is set exactly
    when the index is at least [0x8000]; under Solaris versioning, or
    without a scheme, the index is kept as it is and no flag is set. *)
Theorem strip_hidden_arith (raw : Z) :
  (0 ≤ raw < 65536)%Z →
  strip_hidden (Some GNU) raw
    = ((raw `mod` 32768)%Z,
       if bool_decide (32768 ≤ raw)%Z then Some true else None) ∧
  strip_hidden (Some Solaris) raw = (raw, None) ∧
  strip_hidden None raw = (raw, None).
Proof.
  intros Hr. split; [|done]. unfold strip_hidden. rewrite land_bit15.
  pose proof (bit15_iff raw Hr) as Hb.
  destruct (Z.testbit raw 15) eqn:Ht.
  - assert (32768 ≤ raw)%Z as Hge by (by apply Hb).
    rewrite !bool_decide_eq_true_2 by done. f_equal.
    change 0x8000%Z with (2 ^ 15)%Z.
    rewrite <- Z.ldiff_land, <- Z.sub_nocarry_ldiff.
    + apply (Z.mod_unique_pos _ _ 1); lia.
    + apply Z.bits_inj'. intros n Hn.
      rewrite Z.ldiff_spec, Z.pow2_bits_eqb, Z.bits_0 by lia.
      destruct (Z.eqb_spec 15 n) as [<-|]; [by rewrite Ht|done].
  - assert (¬ (32768 ≤ raw)%Z) as Hlt by (intros ?%Hb; done).
    rewrite (bool_decide_eq_false_2 (0 ≠ 0)%Z) by (intros H0; by apply H0).
    rewrite bool_decide_eq_false_2 by done.
    f_equal. symmetry. apply Z.mod_small. lia.
Qed.

Lemma strip_hidden_arith_witness :
  strip_hidden (Some GNU) 0x8002
    = ((0x8002 `mod` 32768)%Z,
       if bool_decide (32768 ≤ 0x8002)%Z then Some true else None) ∧
  strip_hidden (Some Solaris) 0x8002 = (0x8002%Z, None) ∧
  strip_hidden None 0x8002 = (0x8002%Z, None).
Proof. apply (strip_hidden_arith 0x8002). lia. Defined.

Lemma verneed_branch_ret vi index :
  (∃ names, ExEntropy.verneed_branch vi index = ret names)
  ↔ verneed_resolves vi index = true.
Proof.
  unfold ExEntropy.verneed_branch, verneed_resolves.
  destruct (verneed vi) as [needs|]; [|split; [by intros [? ?]|done]].
  destruct (verneed_get_version needs index) as [[vn va]|].
  - rewrite bool_decide_eq_true_2 by (by eexists). split; [done|by eexists].
  - rewrite bool_decide_eq_false_2 by (by intros [? ?]).
    split; [by intros [? ?]|done].
Qed.

Lemma verdef_branch_ret defs index :
  (∃ names, ExEntropy.verdef_branch defs index = ret names)
  ↔ verdef_resolves defs index = true.
Proof.
  unfold ExEntropy.verdef_branch, verdef_resolves.
  destruct (verdef_get_version defs index) as [[d [|aux l]]|];
    (split; [try by intros [? ?]|try done]); by eexists.
Qed.

Lemma resolve_name_ret vi index :
  (∃ names, ExEntropy.resolve_name vi index = ret names)
  ↔ resolves vi index = true.
Proof.
  unfold ExEntropy.resolve_name, resolves.
  destruct (verdef vi) as [defs|]; [|apply verneed_branch_ret].
  destruct (bool_decide _);
    [apply verdef_branch_ret | apply verneed_branch_ret].
Qed.

(** X8. [_symbol_version] of [__init__.py] never hands back a descriptor.
    It returns [None] without raising when there is no versym section, when
    [nsym] is beyond the table, when the entry is one of the two sentinels,
    and for a numeric entry exactly when the effective index is found in
    the table the code consults; for every other entry it raises. *)
Theorem symbol_version_behaviour (vi : VersionInfo) (nsym : nat) :
  (∀ r, ExEntropy._symbol_version vi nsym = ret r → r = None) ∧
  (ExEntropy._symbol_version vi nsym = ret None ↔
     match versym vi ≫= (λ entries, entries !! nsym) with
     | None | Some VER_NDX_LOCAL | Some VER_NDX_GLOBAL => True
     | Some VER_NDX_LORESERVE | Some VER_NDX_ELIMINATE => False
     | Some (VER_NDX_num raw) =>
         resolves vi (strip_hidden (vtype vi) raw).1 = true
     end).
Proof.
  split; [intros r; apply exentropy_symbol_version_None|].
  unfold ExEntropy._symbol_version, ExEntropy.symbol_version_at_return.
  destruct (versym vi) as [entries|]; simpl; [|done].
  destruct (entries !! nsym) as [[| | | |raw]|]; simpl; try done.
  destruct (strip_hidden (vtype vi) raw) as [index hid]. simpl.
  rewrite <- resolve_name_ret.
  destruct (ExEntropy.resolve_name vi index) as [e|names]; simpl.
  - split; [done|by intros [? ?]].
  - split; [by eexists|done].
Qed.

End VersionMore.

(** ** [display_symbol_tables] *)

Section ClassifierMore.
Import Elf Report Spec Versions.

Lemma func_symbols_elem elffile s :
  s ∈ func_symbols elffile ↔
  s ∈ sections elffile ≫= table_symbols ∧ is_func s = true.
Proof. unfold func_symbols. rewrite list_elem_of_filter. tauto. Qed.

(** X9. In [searchexports.py] the exported names are the names of all
    [FUNC] entries of the tables with a nonzero entry size, the imported
    names are the names of those with the undefined section index, and so
    every imported name is also an exported name. *)
Theorem searchexports_sets (self : ElfInfo) :
  ∃ I E,
    data (SearchExports.display_symbol_tables self) !! "imports"
      = Some (VNames I) ∧
    data (SearchExports.display_symbol_tables self) !! "exports"
      = Some (VNames E) ∧
    (∀ n, n ∈ E ↔ ∃ s, s ∈ func_symbols (elffile self) ∧ name s = n) ∧
    (∀ n, n ∈ I ↔ ∃ s, s ∈ func_symbols (elffile self) ∧
                         is_undefined s = true ∧ name s = n) ∧
    I ⊆ E.
Proof.
  rewrite searchexports_display. do 2 eexists.
  split; [by rewrite lookup_insert_ne, lookup_insert_eq|].
  split; [apply lookup_insert_eq|].
  split; [|split; [|apply searchexports_imports_within_exports]].
  - intros n. rewrite names_where_elem. split.
    + intros (s & ? & ? & ?). exists s. by rewrite func_symbols_elem.
    + intros (s & [? ?]%func_symbols_elem & ?). eauto.
  - intros n. rewrite names_where_elem. unfold imported. split.
    + intros (s & ? & [? ?]%andb_true_iff & ?). exists s.
      by rewrite func_symbols_elem.
    + intros (s & [? ?]%func_symbols_elem & ? & ?). exists s.
      by rewrite andb_true_iff.
Qed.

(** X10. When the run of [__init__.py] returns, its imported names are the
    names of the undefined [FUNC] entries, the same set that
    [searchexports.py] stores for the same object. *)
Theorem imports_agree (self self' : ElfInfo) :
  ExEntropy.display_symbol_tables self = ret self' →
  data self' !! "imports"
    = data (SearchExports.display_symbol_tables self) !! "imports" ∧
  ∃ I, data self' !! "imports" = Some (VNames I) ∧
    ∀ n, n ∈ I ↔ ∃ s, s ∈ func_symbols (elffile self) ∧
                        is_undefined s = true ∧ name s = n.
Proof.
  intros [_ Hd]%exentropy_display. rewrite Hd, searchexports_display.
  rewrite (lookup_insert_ne _ "jexports" "imports") by done.
  rewrite (lookup_insert_ne _ "exports" "imports") by done.
  rewrite !lookup_insert_eq. split; [done|]. eexists. split; [done|].
  intros n. rewrite names_where_elem. unfold imported. split.
  - intros (s & ? & [? ?]%andb_true_iff & ?). exists s.
    by rewrite func_symbols_elem.
  - intros (s & [? ?]%func_symbols_elem & ? & ?). exists s.
    by rewrite andb_true_iff.
Qed.

Lemma imports_agree_witness :
  let self := ExEntropy.ElfInfo_init Samples.printf_elf false in
  let self' :=
    match ExEntropy.display_symbol_tables self with
    | inr s => s
    | inl _ => self
    end in
  data self' !! "imports"
    = data (SearchExports.display_symbol_tables self) !! "imports" ∧
  ∃ I, data self' !! "imports" = Some (VNames I) ∧
    ∀ n, n ∈ I ↔ ∃ s, s ∈ func_symbols (elffile self) ∧
                        is_undefined s = true ∧ name s = n.
Proof.
  apply (imports_agree (ExEntropy.ElfInfo_init Samples.printf_elf false)).
  vm_compute. reflexivity.
Defined.

(** X11. Whenever [display_symbol_tables] of [__init__.py] returns on a
    freshly constructed object, the report holds exactly the two entries
    [imports] and [jexports]: no [exports], no [arch]. *)
Theorem fresh_report_keys
    (container : ELFFile) (verbose : bool) (self' : ElfInfo) :
  ExEntropy.display_symbol_tables (ExEntropy.ElfInfo_init container verbose)
    = ret self' →
  ∃ I J, data self' = {[ "imports" := VNames I; "jexports" := VNames J ]}.
Proof.
  intros [_ Hd]%exentropy_display.
  do 2 eexists. rewrite Hd. simpl.
  apply map_eq. intros k.
  destruct (decide (k = "jexports")) as [->|?]; [by simplify_map_eq|].
  destruct (decide (k = "imports")) as [->|?]; by simplify_map_eq.
Qed.

Lemma fresh_report_keys_witness :
  ∃ I J,
    data (match ExEntropy.display_symbol_tables
                  (ExEntropy.ElfInfo_init Samples.mixed_elf false) with
          | inr s => s
          | inl _ => ExEntropy.ElfInfo_init Samples.mixed_elf false
          end)
    = {[ "imports" := VNames I; "jexports" := VNames J ]}.
Proof.
  apply (fresh_report_keys Samples.mixed_elf false).
  vm_compute. reflexivity.
Defined.

Lemma NoDup_fmap_elem_inj {A B} (f : A → B) (l : list A) x y :
  NoDup (f <$> l) → x ∈ l → y ∈ l → f x = f y → x = y.
Proof.
  induction l as [|a l IH]; intros Hnd Hx Hy Hf; [by inversion Hx|].
  rewrite fmap_cons in Hnd. apply NoDup_cons in Hnd as [Ha Hnd].
  apply elem_of_cons in Hx as [->|Hx]; apply elem_of_cons in Hy as [->|Hy];
    try done.
  - exfalso. apply Ha. rewrite Hf. by apply list_elem_of_fmap_2.
  - exfalso. apply Ha. rewrite <- Hf. by apply list_elem_of_fmap_2.
  - by apply IH.
Qed.

(** X12. When the [FUNC] entries of the scanned tables have pairwise
    distinct names, the [imports] and [jexports] sets of a run of
    [__init__.py] that returns are disjoint. *)
Theorem imports_jexports_disjoint (self self' : ElfInfo) :
  ExEntropy.display_symbol_tables self = ret self' →
  NoDup (name <$> func_symbols (elffile self)) →
  ∃ I J, data self' !! "imports" = Some (VNames I) ∧
         data self' !! "jexports" = Some (VNames J) ∧ I ## J.
Proof.
  intros [_ Hd]%exentropy_display Hnd. rewrite Hd. do 2 eexists.
  split; [by rewrite lookup_insert_ne, lookup_insert_eq|].
  split; [apply lookup_insert_eq|].
  intros n (s1 & H1 & [Hf1 Hu]%andb_true_iff & Hn1)%names_where_elem
           (s2 & H2 & [[Hf2 Hdf]%andb_true_iff _]%andb_true_iff & Hn2)
           %names_where_elem.
  assert (s1 = s2) as ->.
  { apply (NoDup_fmap_elem_inj name (func_symbols (elffile self)));
      rewrite ?func_symbols_elem; try done. congruence. }
  unfold is_undefined, is_defined in *. by destruct (st_shndx_ s2).
Qed.

Lemma imports_jexports_disjoint_witness :
  let self := ExEntropy.ElfInfo_init Samples.mixed_elf false in
  let self' :=
    match ExEntropy.display_symbol_tables self with
    | inr s => s
    | inl _ => self
    end in
  data self' !! "imports" = Some (VNames {[ "printf" ]}) ∧
  data self' !! "jexports" = Some (VNames {[ "Java_com_x_y_foo" ]}) ∧
  ∃ I J, data self' !! "imports" = Some (VNames I) ∧
         data self' !! "jexports" = Some (VNames J) ∧ I ## J.
Proof.
  split; [by vm_compute|]. split; [by vm_compute|].
  apply (imports_jexports_disjoint
           (ExEntropy.ElfInfo_init Samples.mixed_elf false)).
  - vm_compute. reflexivity.
  - apply (bool_decide_unpack _). vm_compute. exact I.
Defined.

(** X13. A [FUNC] entry whose section index is [SHN_ABS] or [SHN_COMMON]
    is neither an import nor a JNI export for [__init__.py] (the index is
    not ["UND"] and [int] fails on its description), while
    [searchexports.py] counts it as an export. *)
Theorem absolute_and_common_symbols
    (acc : gset string * gset string) (s : Symbol) :
  is_func s = true →
  st_shndx_ s = SHN_ABS ∨ st_shndx_ s = SHN_COMMON →
  ExEntropy.classify acc s = acc ∧
  SearchExports.classify acc s = (acc.1, {[ name s ]} ∪ acc.2).
Proof.
  intros Hf Hs. rewrite exentropy_classify, searchexports_classify.
  rewrite !names_where_cons, !names_where_nil.
  unfold imported, jni_exported, is_undefined, is_defined. rewrite Hf.
  destruct acc as [I J]. simpl.
  destruct Hs as [-> | ->]; simpl; split; f_equal; set_solver.
Qed.

Lemma absolute_and_common_symbols_witness :
  let s := {| name := "Java_abs"; st_info_type := STT_FUNC;
              st_shndx_ := SHN_ABS |} in
  let acc : gset string * gset string := (∅, ∅) in
  ExEntropy.classify acc s = acc ∧
  SearchExports.classify acc s = (acc.1, {[ name s ]} ∪ acc.2).
Proof.
  apply (absolute_and_common_symbols (∅, ∅)
           {| name := "Java_abs"; st_info_type := STT_FUNC;
              st_shndx_ := SHN_ABS |}).
  - reflexivity.
  - left. reflexivity.
Defined.

End ClassifierMore.

(** ** The report: sections, segments, needed libraries *)

Section ReportMore.
Import Elf Report Spec Regions.

Lemma bind_ret {A B} (a : A) (k : A → py B) : bind (ret a) k = k a.
Proof. done. Qed.

Lemma section_fold acc secs :
  foldl ExEntropy.section_step (ret acc) secs
  = ret (acc ++ (region_of_section <$>
                   filter (λ section, sec_name section ≠ "") secs)).
Proof.
  revert acc. induction secs as [|x secs IH]; intros acc.
  - simpl. by rewrite app_nil_r.
  - change (foldl ?f ?a (x :: secs)) with (foldl f (f a x) secs).
    assert (ExEntropy.section_step (ret acc) x
            = ret (acc ++ (region_of_section <$>
                             filter (λ section, sec_name section ≠ "") [x])))
      as ->.
    { unfold ExEntropy.section_step. rewrite bind_ret, filter_cons.
      destruct (decide (sec_name x ≠ "")) as [Hn|Hn].
      - rewrite bool_decide_eq_true_2 by done.
        by rewrite compute_entropy_shannon, bind_ret.
      - rewrite bool_decide_eq_false_2 by done. simpl.
        by rewrite app_nil_r. }
    rewrite IH, <- app_assoc, <- fmap_app.
    by rewrite <- filter_app.
Qed.

Lemma collect_segment_fold acc segs :
  foldl SearchExports.segment_step (ret acc) segs
  = ret (acc ++ (region_of_segment <$> segs)).
Proof.
  revert acc. induction segs as [|x segs IH]; intros acc.
  - simpl. by rewrite app_nil_r.
  - change (foldl ?f ?a (x :: segs)) with (foldl f (f a x) segs).
    assert (SearchExports.segment_step (ret acc) x
            = ret (acc ++ [region_of_segment x])) as ->.
    { unfold SearchExports.segment_step.
      by rewrite bind_ret, compute_entropy_shannon, bind_ret. }
    by rewrite IH, fmap_cons, <- app_assoc.
Qed.

Lemma print_segment_fold_raise e segs :
  foldl ExEntropy.segment_step (raise e) segs = raise e.
Proof. induction segs as [|x segs IH]; [done|]. exact IH. Qed.

(** The segment loop of [print_infos] stops with [TypeError] at the first
    segment whose type is a number. *)
Lemma print_segment_fold acc segs :
  foldl ExEntropy.segment_step (ret acc) segs
  = if forallb named_type segs
    then ret (acc ++ (region_of_segment <$> segs))
    else raise TypeError.
Proof.
  revert acc. induction segs as [|x segs IH]; intros acc.
  - simpl. by rewrite app_nil_r.
  - change (foldl ?f ?a (x :: segs)) with (foldl f (f a x) segs).
    assert (ExEntropy.segment_step (ret acc) x
            = if named_type x then ret (acc ++ [region_of_segment x])
              else raise TypeError) as ->.
    { unfold ExEntropy.segment_step, named_type, region_of_segment.
      rewrite bind_ret, compute_entropy_shannon, bind_ret.
      by destruct (p_type x). }
    change (forallb named_type (x :: segs))
      with (named_type x && forallb named_type segs).
    destruct (named_type x).
    + rewrite IH. change (true && ?b) with b.
      destruct (forallb named_type segs); [|done].
      by rewrite fmap_cons, <- app_assoc.
    + apply print_segment_fold_raise.
Qed.

Lemma collect_sections_segments_value self :
  SearchExports.collect_sections_segments self
  = ret (set_data
           (set_data self "sections"
              (VRegions (region_of_section <$> named_sections (elffile self))))
           "segments"
           (VRegions (region_of_segment <$> segments (elffile self)))).
Proof.
  unfold SearchExports.collect_sections_segments.
  rewrite section_fold, bind_ret. simpl elffile.
  by rewrite collect_segment_fold, bind_ret.
Qed.

Lemma dynamic_fold_frame self secs :
  elffile (foldl ExEntropy.dynamic_step self secs) = elffile self ∧
  ∀ k, k ≠ "shlib" →
    data (foldl ExEntropy.dynamic_step self secs) !! k = data self !! k.
Proof.
  rewrite exentropy_dynamic_fold.
  destruct (last (dynamic_tag_lists secs)); [|done].
  split; [done|]. intros k Hk. simpl. by rewrite lookup_insert_ne.
Qed.

Lemma print_infos_value self :
  ExEntropy.print_infos self
  = if forallb named_type (segments (elffile self))
    then ret (set_data
                (set_data (ExEntropy.display_dynamic_tags self) "sections"
                   (VRegions (region_of_section <$>
                                named_sections (elffile self))))
                "segments"
                (VRegions (region_of_segment <$> segments (elffile self))))
    else raise TypeError.
Proof.
  unfold ExEntropy.print_infos, ExEntropy.display_dynamic_tags.
  destruct (dynamic_fold_frame self (sections (elffile self))) as [He _].
  rewrite He, section_fold, bind_ret. simpl elffile.
  rewrite He, print_segment_fold.
  by destruct (forallb named_type (segments (elffile self))).
Qed.

Lemma describes_sections secs :
  Forall2 describes_section secs (region_of_section <$> secs).
Proof.
  induction secs as [|x secs IH]; constructor; [|done].
  unfold describes_section. simpl. by rewrite compute_entropy_shannon.
Qed.

Lemma describes_segments segs :
  Forall2 describes_segment segs (region_of_segment <$> segs).
Proof.
  induction segs as [|x segs IH]; constructor; [|done].
  unfold describes_segment. simpl. by rewrite compute_entropy_shannon.
Qed.

(** X14. When [print_infos] of [__init__.py] returns, every segment type is
    a name: on a segment whose [p_type] is a number the function raises
    while it formats the line for [_emitline], verbose or not. The report
    then is the one of [display_dynamic_tags] with one ["sections"] entry
    per section with a non-empty name and one ["segments"] entry per
    segment, in order, each carrying the name, size and flags of its header
    and the value of [compute_entropy] on its data. *)
Theorem print_infos_report (self self' : ElfInfo) :
  ExEntropy.print_infos self = ret self' →
  forallb named_type (segments (elffile self)) = true ∧
  ∃ secs segs,
    self' = set_data
              (set_data (ExEntropy.display_dynamic_tags self) "sections"
                 (VRegions secs))
              "segments" (VRegions segs) ∧
    Forall2 describes_section (named_sections (elffile self)) secs ∧
    Forall2 describes_segment (segments (elffile self)) segs.
Proof.
  rewrite print_infos_value.
  destruct (forallb named_type (segments (elffile self))); [|done].
  intros [= <-]. split; [done|]. do 2 eexists. split; [done|].
  split; [apply describes_sections | apply describes_segments].
Qed.

Lemma print_infos_report_witness :
  ∃ self',
    ExEntropy.print_infos (ExEntropy.ElfInfo_init Samples.mixed_elf false)
      = ret self' ∧
    forallb named_type (segments Samples.mixed_elf) = true ∧
    ∃ secs segs,
      self' = set_data
                (set_data
                   (ExEntropy.display_dynamic_tags
                      (ExEntropy.ElfInfo_init Samples.mixed_elf false))
                   "sections" (VRegions secs))
                "segments" (VRegions segs) ∧
      Forall2 describes_section (named_sections Samples.mixed_elf) secs ∧
      Forall2 describes_segment (segments Samples.mixed_elf) segs.
Proof.
  eexists. split; [rewrite print_infos_value; reflexivity|].
  apply (print_infos_report (ExEntropy.ElfInfo_init Samples.mixed_elf false)).
  rewrite print_infos_value. reflexivity.
Defined.

(** X15. When [collect_sections_segments] returns, it has stored under
    ["sections"] one entry per section with a non-empty name, in section
    order, and under ["segments"] one entry per segment, each carrying the
    name, size and flags of its header and the value of [compute_entropy]
    on its data; sections with an empty name are left out, and nothing
    else of the object changes. *)
Theorem sections_and_segments_report (self self' : ElfInfo) :
  SearchExports.collect_sections_segments self = ret self' →
  ∃ secs segs,
    self' = set_data (set_data self "sections" (VRegions secs))
              "segments" (VRegions segs) ∧
    Forall2 describes_section (named_sections (elffile self)) secs ∧
    Forall2 describes_segment (segments (elffile self)) segs.
Proof.
  rewrite collect_sections_segments_value. intros [= <-].
  do 2 eexists. split; [done|].
  split; [apply describes_sections | apply describes_segments].
Qed.

Lemma sections_and_segments_report_witness :
  ∃ self',
    SearchExports.collect_sections_segments
      (SearchExports.ElfInfo_init Samples.mixed_elf false) = ret self' ∧
    ∃ secs segs,
      self' = set_data
                (set_data (SearchExports.ElfInfo_init Samples.mixed_elf false)
                   "sections" (VRegions secs))
                "segments" (VRegions segs) ∧
      Forall2 describes_section (named_sections Samples.mixed_elf) secs ∧
      Forall2 describes_segment (segments Samples.mixed_elf) segs.
Proof.
  eexists. split; [apply collect_sections_segments_value|].
  apply (sections_and_segments_report
           (SearchExports.ElfInfo_init Samples.mixed_elf false)).
  apply collect_sections_segments_value.
Defined.

(** X16. [collect_sharedlib] writes nothing but ["shlib"]: the container
    and every other entry of the report are kept, and running it a second
    time changes nothing. *)
Theorem collect_sharedlib_frame (self : ElfInfo) :
  elffile (SearchExports.collect_sharedlib self) = elffile self ∧
  (∀ k, k ≠ "shlib" →
     data (SearchExports.collect_sharedlib self) !! k = data self !! k) ∧
  SearchExports.collect_sharedlib (SearchExports.collect_sharedlib self)
    = SearchExports.collect_sharedlib self.
Proof.
  unfold SearchExports.collect_sharedlib.
  rewrite !searchexports_dynamic_fold.
  destruct (dynamic_fold_frame self (sections (elffile self))) as [He Hk].
  split; [done|]. split; [done|].
  rewrite searchexports_dynamic_fold, He, !exentropy_dynamic_fold.
  destruct (last (dynamic_tag_lists (sections (elffile self)))); [|done].
  apply set_data_twice.
Qed.

Lemma get_infos_value container verbose :
  SearchExports.get_infos (SearchExports.ElfInfo_init container verbose)
  = ret (SearchExports.display_symbol_tables
           (SearchExports.collect_sharedlib
              (set_data
                 (set_data (SearchExports.ElfInfo_init container verbose)
                    "sections"
                    (VRegions (region_of_section <$>
                                 named_sections container)))
                 "segments"
                 (VRegions (region_of_segment <$> segments container))))).
Proof.
  unfold SearchExports.get_infos.
  by rewrite collect_sections_segments_value, bind_ret.
Qed.

(** X17. When [get_infos] of [searchexports.py] returns on a freshly
    constructed object, the report holds ["arch"] (the ELF class),
    ["sections"] and ["segments"] (one entry per named section and per
    segment), ["imports"] and ["exports"] always, ["shlib"] exactly when the
    container has a dynamic section (the NEEDED entries of the last one),
    and no other key. *)
Theorem get_infos_report
    (container : ELFFile) (verbose : bool) (self' : ElfInfo) :
  SearchExports.get_infos (SearchExports.ElfInfo_init container verbose)
    = ret self' →
  data self' !! "arch" = Some (VInt (elfclass container)) ∧
  (∃ secs, data self' !! "sections" = Some (VRegions secs) ∧
           Forall2 describes_section (named_sections container) secs) ∧
  (∃ segs, data self' !! "segments" = Some (VRegions segs) ∧
           Forall2 describes_segment (segments container) segs) ∧
  data self' !! "imports"
    = Some (VNames (names_where imported
                      (sections container ≫= table_symbols))) ∧
  data self' !! "exports"
    = Some (VNames (names_where is_func
                      (sections container ≫= table_symbols))) ∧
  data self' !! "shlib"
    = (λ tags, VNames (list_to_set (needed_entries tags)))
        <$> last (dynamic_sections container) ∧
  dom (data self') ⊆
    {[ "arch"; "sections"; "segments"; "imports"; "exports"; "shlib" ]}.
Proof.
  rewrite get_infos_value. intros [= <-].
  rewrite searchexports_display.
  unfold SearchExports.collect_sharedlib.
  rewrite searchexports_dynamic_fold, exentropy_dynamic_fold.
  unfold dynamic_sections.
  cbn [elffile set_data SearchExports.ElfInfo_init].
  pose proof (describes_sections (named_sections container)) as Hsec.
  pose proof (describes_segments (segments container)) as Hseg.
  destruct (last (dynamic_tag_lists (sections container))) as [tags|];
    cbn [elffile data set_data SearchExports.ElfInfo_init
         fmap option_fmap option_map];
    (split; [by simplify_map_eq|]);
    (split; [eexists; split; [by simplify_map_eq|done]|]);
    (split; [eexists; split; [by simplify_map_eq|done]|]);
    (repeat split; try by simplify_map_eq);
    rewrite !dom_insert_L, dom_singleton_L; set_solver.
Qed.

Lemma get_infos_report_witness :
  ∃ self',
    SearchExports.get_infos (SearchExports.ElfInfo_init Samples.mixed_elf false)
      = ret self' ∧
    data self' !! "arch" = Some (VInt 32) ∧
    data self' !! "imports" = Some (VNames {[ "printf" ]}) ∧
    data self' !! "shlib" = None ∧
    dom (data self') ⊆
      {[ "arch"; "sections"; "segments"; "imports"; "exports"; "shlib" ]}.
Proof.
  eexists. split; [apply get_infos_value|].
  destruct (get_infos_report Samples.mixed_elf false _
              (get_infos_value Samples.mixed_elf false))
    as (Harch & _ & _ & Himp & _ & Hshlib & Hdom).
  split; [exact Harch|]. split; [|split; [exact Hshlib|exact Hdom]].
  rewrite Himp. vm_compute. reflexivity.
Defined.

End ReportMore.

(** ** The upload endpoint and the batch scripts *)

Section ServiceMore.
Import Elf Report Spec Web Batch.

(** X18. For a request whose file name, if it has one, is plain ASCII
    (no character above [0x7f], none of the separators [0x1c]..[0x1f]),
    the endpoint answers with the 400 handler exactly when the request has
    no [file] field or the file name is blank, and with the 500 handler in
    every other case. *)
Theorem upload_validation
    (ELFFile : list byte → py Elf.ELFFile)
    (save_and_open : FileStorage → py (list byte)) (request : Request) :
  (∀ elf, files request !! "file" = Some elf →
          PyStr.plain_ascii (fs_filename elf) = true) →
  (dispatch ELFFile save_and_open request = bad_request ↔
     ∀ elf, files request !! "file" = Some elf →
            PyStr.strip (fs_filename elf) = "") ∧
  (dispatch ELFFile save_and_open request = internal_error ↔
     ∃ elf, files request !! "file" = Some elf ∧
            PyStr.strip (fs_filename elf) ≠ "").
Proof.
  intros _. unfold dispatch, submit_elf.
  destruct (files request !! "file") as [elf|].
  - destruct (bool_decide_reflect (PyStr.strip (fs_filename elf) = ""))
      as [Hs|Hs].
    + split; split.
      * intros _ elf0 [= <-]. done.
      * done.
      * done.
      * intros (elf0 & [= <-] & Hne). done.
    + destruct (analyse_raises ELFFile save_and_open elf) as [e ->].
      split; split.
      * done.
      * intros H. exfalso. by apply Hs, H.
      * intros _. by exists elf.
      * done.
  - split; split.
    + intros _ elf0 H. done.
    + done.
    + done.
    + intros (elf0 & H & _). done.
Qed.

Lemma upload_validation_witness :
  let parse : list byte → py Elf.ELFFile := λ _, raise ELFError in
  let save : FileStorage → py (list byte) := λ f, ret (fs_stream f) in
  let upload name :=
    {| files := {[ "file" := {| fs_filename := name; fs_stream := [] |} ]} |} in
  dispatch parse save (upload "  ") = bad_request ∧
  dispatch parse save (upload " a.so ") = internal_error.
Proof.
  cbv zeta. split.
  - apply (upload_validation (λ _, raise ELFError) (λ f, ret (fs_stream f))
             {| files := {[ "file" := {| fs_filename := "  ";
                                         fs_stream := [] |} ]} |}).
    + intros elf H. simpl in H.
      apply lookup_singleton_Some in H as [_ <-]. reflexivity.
    + intros elf H. simpl in H.
      apply lookup_singleton_Some in H as [_ <-]. reflexivity.
  - apply (upload_validation (λ _, raise ELFError) (λ f, ret (fs_stream f))
             {| files := {[ "file" := {| fs_filename := " a.so ";
                                         fs_stream := [] |} ]} |}).
    + intros elf H. simpl in H.
      apply lookup_singleton_Some in H as [_ <-]. reflexivity.
    + eexists. split; [apply lookup_singleton_eq|]. vm_compute. discriminate.
Defined.

Lemma exports_step_value S (file : candidate) :
  exports_step S file
  = match file with
    | inl _ => S
    | inr e => S ∪ names_where is_func (sections e ≫= table_symbols)
    end.
Proof.
  destruct file as [exc|e]; [done|]. unfold exports_step.
  by rewrite searchexports_display, lookup_insert_eq.
Qed.

Lemma exports_fold S (files : list candidate) n :
  n ∈ foldl exports_step S files ↔
  n ∈ S ∨ ∃ e, inr e ∈ files ∧ ∃ s, s ∈ func_symbols e ∧ name s = n.
Proof.
  revert S. induction files as [|file files IH]; intros S.
  - simpl. split; [by left|]. intros [?|(e & He & _)]; [done|].
    by inversion He.
  - simpl foldl. rewrite IH, exports_step_value. clear IH. split.
    + intros [Hn|(e & He & Hs)].
      * destruct file as [exc|e]; [by left|].
        apply elem_of_union in Hn as [?|Hn]; [by left|]. right. exists e.
        split; [by left|].
        apply names_where_elem in Hn as (s & ? & ? & ?). exists s.
        by rewrite func_symbols_elem.
      * right. exists e. split; [by right|done].
    + intros [Hn|(e & He & s & Hs & Hname)].
      * left. destruct file; [done|]. set_solver.
      * apply elem_of_cons in He as [<-|He].
        -- left. apply elem_of_union. right. apply names_where_elem.
           apply func_symbols_elem in Hs as [? ?]. eauto.
        -- right. eauto.
Qed.

(** X19. Run as a program, [searchexports.py] writes exactly the names of
    the [FUNC] entries of the files that could be opened and parsed; a file
    that raises contributes nothing and does not stop the walk. *)
Theorem extract_exports_names (files : list candidate) (n : string) :
  n ∈ extract_exports files ↔
  ∃ e, inr e ∈ files ∧ ∃ s, s ∈ func_symbols e ∧ name s = n.
Proof.
  unfold extract_exports. rewrite exports_fold. split; [|by right].
  intros [H|H]; [set_solver|done].
Qed.

Lemma imports_step_skip S (file : candidate) : imports_step S file = S.
Proof.
  unfold imports_step. destruct file as [exc|e]; [done|].
  by rewrite bind_ret, call_get_infos.
Qed.

(** X20. [import_extractor.py] never extracts a name: it calls [get_infos]
    on the [ElfInfo] of [__init__.py], which has no such method, so every
    file ends in the [except] branch and the set written out is empty. *)
Theorem extract_imports_empty (files : list candidate) :
  extract_imports files = ∅.
Proof.
  unfold extract_imports. generalize (∅ : gset string).
  induction files as [|file files IH]; intros S; [done|].
  simpl foldl. by rewrite imports_step_skip.
Qed.

End ServiceMore.

(** ** [_format_hex] *)

Section FormatMore.
Import Format.

Lemma length_app_string s1 s2 :
  String.length (String.app s1 s2) = (String.length s1 + String.length s2)%nat.
Proof.
  unfold String.app. induction s1 as [|a s1 IH]; [done|].
  simpl. by rewrite IH.
Qed.

Lemma length_zeros n : String.length (zeros n) = n.
Proof. induction n as [|n IH]; simpl; by rewrite ?IH. Qed.

Lemma int16_zero_cons t : int16 (String "0" t) = int16 t.
Proof.
  unfold int16. simpl.
  by destruct (HexadecimalString.NilEmpty.uint_of_string t).
Qed.

Lemma int16_zeros k s : int16 (String.app (zeros k) s) = int16 s.
Proof.
  induction k as [|k IH]; [done|].
  change (String.app (zeros (S k)) s)
    with (String "0" (String.app (zeros k) s)).
  by rewrite int16_zero_cons.
Qed.

Lemma int16_hex_of_N addr : int16 (hex_of_N addr) = Some addr.
Proof.
  unfold int16, hex_of_N. rewrite HexadecimalString.NilEmpty.usu. simpl.
  by rewrite HexadecimalN.Unsigned.of_to.
Qed.

(** X21. With [fullhex] and without [alternate] (the way the symbol table
    listing calls it) [_format_hex] never raises; it ignores [fieldsize]
    and gives the lower-case hexadecimal digits of the address, padded
    with zeros on the left to 8 characters for a 32-bit container and 16
    otherwise, never truncated, and reading the result as a hexadecimal
    number gives the address back. *)
Theorem format_hex_fullhex (elfclass : Z) (addr : N) (fieldsize : option Z) :
  let width := if bool_decide (elfclass = 32%Z) then 8%nat else 16%nat in
  ∃ field,
    _format_hex elfclass addr fieldsize true false false = ret field ∧
    _format_hex elfclass addr fieldsize true true false
      = ret (String.app "0x" field) ∧
    String.length field = Nat.max width (String.length (hex_of_N addr)) ∧
    int16 field = Some addr.
Proof.
  cbv zeta.
  exists (format_0wx (if bool_decide (elfclass = 32%Z) then 8 else 16) addr).
  split; [reflexivity|]. split; [reflexivity|].
  unfold format_0wx.
  destruct (bool_decide (elfclass = 32%Z)).
  - change (0 <=? 8)%Z with true. cbv iota.
    rewrite int16_zeros, int16_hex_of_N, length_app_string, length_zeros.
    split; [|done]. change (Z.to_nat 8) with 8%nat. lia.
  - change (0 <=? 16)%Z with true. cbv iota.
    rewrite int16_zeros, int16_hex_of_N, length_app_string, length_zeros.
    split; [|done]. change (Z.to_nat 16) with 16%nat. lia.
Qed.

(** X22. With [alternate]: the zero address is printed without the [0x]
    prefix; a non-zero address with the default [fieldsize] raises
    [TypeError] (the code subtracts 2 from [None]), even with [fullhex];
    and with a [fieldsize] that leaves room for the digits, the prefix is
    counted in: the result is [0x] followed by zero-padded digits and has
    exactly [fieldsize] characters. *)
Theorem format_hex_alternate
    (elfclass : Z) (addr : N) (w : Z) (fullhex lead0x : bool) :
  addr ≠ 0%N →
  (2 + Z.of_nat (String.length (hex_of_N addr)) ≤ w)%Z →
  _format_hex elfclass 0 None false lead0x true = ret "0" ∧
  _format_hex elfclass addr None fullhex lead0x true = raise TypeError ∧
  ∃ field,
    _format_hex elfclass addr (Some w) false lead0x true
      = ret (String.app "0x" field) ∧
    int16 field = Some addr ∧
    Z.of_nat (String.length (String.app "0x" field)) = w.
Proof.
  intros Ha Hw. split; [done|]. unfold _format_hex.
  rewrite !bool_decide_eq_false_2 by done. split; [done|].
  exists (format_0wx (w - 2) addr). split; [reflexivity|].
  unfold format_0wx. rewrite (proj2 (Z.leb_le 0 (w - 2))) by lia.
  rewrite int16_zeros, int16_hex_of_N. split; [done|].
  rewrite !length_app_string, length_zeros.
  change (String.length "0x") with 2%nat. lia.
Qed.

Lemma format_hex_alternate_witness :
  _format_hex 64 0 None false false true = ret "0" ∧
  _format_hex 64 255 None true false true = raise TypeError ∧
  ∃ field,
    _format_hex 64 255 (Some 10%Z) false false true
      = ret (String.app "0x" field) ∧
    int16 field = Some 255%N ∧
    Z.of_nat (String.length (String.app "0x" field)) = 10%Z.
Proof.
  apply (format_hex_alternate 64 255 10 true false).
  - discriminate.
  - vm_compute. discriminate.
Defined.

End FormatMore.
